(** * Mock LLM servers: the Ollama-compatible and the OpenAI-compatible handlers

    A shallow embedding of [demo_10_1_OllamaCompatibleServer.py] and
    [demo_10_2_OpenAICompatibleServer.py].

    - A Python [str] is a list of Unicode code points ([N]); slicing, [split]
      and [strip] work on code points, as in Python.
    - A value that comes out of [request.json()], and every dictionary a
      handler builds for [json.dumps] or [web.json_response], is a [json].
    - A handler is a computation in a monad that threads the response stream
      (what was written, in order) and the wall clock, and that can raise a
      Python exception; [try ... except Exception] is [try_except].
    - What the interpreter and the libraries around the handlers supply
      (clock, uuid, [hash], [repr], the random generator) is an [env].
    - The floats of Python are the binary64 floats of [PrimFloat]; [0.7] in
      the source is the float nearest to it. *)

From Stdlib Require Import List NArith ZArith String Ascii Bool Lia PrimFloat.
From Stdlib Require Decimal DecimalFacts DecimalN DecimalPos.
Import ListNotations.

Set Implicit Arguments.
#[local] Set Warnings "-register-all".
Local Open Scope N_scope.

(** ** Python strings *)

Module PyStr.

Definition char := N.
Definition str := list char.
Definition bytes := list N.

(** Decoding of a UTF-8 byte sequence; used to write the source's literals. *)
Fixpoint utf8_decode (bs : bytes) : str :=
  match bs with
  | [] => []
  | b0 :: r0 =>
    if b0 <? 0x80 then b0 :: utf8_decode r0
    else match r0 with
    | [] => []
    | b1 :: r1 =>
      if b0 <? 0xE0 then ((b0 - 0xC0) * 0x40 + (b1 - 0x80)) :: utf8_decode r1
      else match r1 with
      | [] => []
      | b2 :: r2 =>
        if b0 <? 0xF0
        then ((b0 - 0xE0) * 0x1000 + (b1 - 0x80) * 0x40 + (b2 - 0x80))
               :: utf8_decode r2
        else match r2 with
        | [] => []
        | b3 :: r3 =>
          ((b0 - 0xF0) * 0x40000 + (b1 - 0x80) * 0x1000
           + (b2 - 0x80) * 0x40 + (b3 - 0x80)) :: utf8_decode r3
        end
      end
    end
  end.

(** [lit "..."] is the Python string literal with that text. *)
Definition lit (s : string) : str :=
  utf8_decode (map N_of_ascii (list_ascii_of_string s)).

(** [str.encode('utf-8')].  Python refuses lone surrogates; the handlers only
    encode the output of [json.dumps], which is ASCII. *)
Definition utf8_encode_char (c : char) : bytes :=
  if c <? 0x80 then [c]
  else if c <? 0x800 then [0xC0 + c / 0x40; 0x80 + c mod 0x40]
  else if c <? 0x10000
       then [0xE0 + c / 0x1000; 0x80 + (c / 0x40) mod 0x40; 0x80 + c mod 0x40]
  else [0xF0 + c / 0x40000; 0x80 + (c / 0x1000) mod 0x40;
        0x80 + (c / 0x40) mod 0x40; 0x80 + c mod 0x40].

Definition encode_utf8 (s : str) : bytes := flat_map utf8_encode_char s.

Fixpoint str_eqb (a b : str) : bool :=
  match a, b with
  | [], [] => true
  | x :: a', y :: b' => (x =? y) && str_eqb a' b'
  | _, _ => false
  end.

(** [str.isspace] on one code point: what [split()] and [strip()] treat as
    whitespace. *)
Definition is_space (c : char) : bool :=
  ((0x09 <=? c) && (c <=? 0x0D)) || ((0x1C <=? c) && (c <=? 0x20))
  || (c =? 0x85) || (c =? 0xA0) || (c =? 0x1680)
  || ((0x2000 <=? c) && (c <=? 0x200A))
  || (c =? 0x2028) || (c =? 0x2029) || (c =? 0x202F) || (c =? 0x205F)
  || (c =? 0x3000).

(** [s.split()]: maximal runs of non-whitespace, scanning left to right with
    the word in progress in [cur]. *)
Fixpoint split_ws_from (cur : str) (s : str) : list str :=
  match s with
  | [] => match cur with [] => [] | _ => [cur] end
  | c :: r =>
    if is_space c
    then match cur with
         | [] => split_ws_from [] r
         | _ => cur :: split_ws_from [] r
         end
    else split_ws_from (cur ++ [c]) r
  end.

Definition split_ws (s : str) : list str := split_ws_from [] s.

(** [s.split(sep)] for a separator of one code point. *)
Fixpoint split_on_from (sep : char) (cur : str) (s : str) : list str :=
  match s with
  | [] => [cur]
  | c :: r =>
    if c =? sep then cur :: split_on_from sep [] r
    else split_on_from sep (cur ++ [c]) r
  end.

Definition split_on (sep : char) (s : str) : list str := split_on_from sep [] s.

Fixpoint lstrip (s : str) : str :=
  match s with
  | c :: r => if is_space c then lstrip r else s
  | [] => []
  end.

(** [s.strip()] *)
Definition strip (s : str) : str := rev (lstrip (rev (lstrip s))).

(** Truth value of a string: non-empty. *)
Definition str_truthy (s : str) : bool :=
  match s with [] => false | _ => true end.

(** [s[:n]] *)
Definition slice_to (n : nat) (s : str) : str := firstn n s.

(** [needle in s] *)
Fixpoint is_prefix (p s : str) : bool :=
  match p, s with
  | [], _ => true
  | x :: p', y :: s' => (x =? y) && is_prefix p' s'
  | _ :: _, [] => false
  end.

Fixpoint contains (needle s : str) : bool :=
  is_prefix needle s ||
  match s with
  | [] => false
  | _ :: r => contains needle r
  end.

(** [str(n)] for an integer. *)
Definition digit_char (d : N) : char := 0x30 + d.

Fixpoint uint_chars (d : Decimal.uint) : str :=
  match d with
  | Decimal.Nil => []
  | Decimal.D0 r => digit_char 0 :: uint_chars r
  | Decimal.D1 r => digit_char 1 :: uint_chars r
  | Decimal.D2 r => digit_char 2 :: uint_chars r
  | Decimal.D3 r => digit_char 3 :: uint_chars r
  | Decimal.D4 r => digit_char 4 :: uint_chars r
  | Decimal.D5 r => digit_char 5 :: uint_chars r
  | Decimal.D6 r => digit_char 6 :: uint_chars r
  | Decimal.D7 r => digit_char 7 :: uint_chars r
  | Decimal.D8 r => digit_char 8 :: uint_chars r
  | Decimal.D9 r => digit_char 9 :: uint_chars r
  end.

Definition int_to_str (z : Z) : str :=
  match z with
  | Z0 => [digit_char 0]
  | Zpos p => uint_chars (Pos.to_uint p)
  | Zneg p => 0x2D :: uint_chars (Pos.to_uint p)
  end.

Arguments lit : simpl never.

End PyStr.
Import PyStr.


(** ** JSON values and [json.dumps] *)

Module Json.

(** What [json.loads] returns and what [json.dumps] accepts: [None], [bool],
    [int], [float], [str], [list] and [dict] with string keys.  A dictionary
    keeps its insertion order and holds each key once. *)
Inductive json : Type :=
| JNull
| JBool (b : bool)
| JInt (z : Z)
| JFloat (f : float)
| JStr (s : str)
| JArr (l : list json)
| JObj (kvs : list (str * json)).

Definition dict := list (str * json).

(** [d[k]] when present. *)
Fixpoint dict_lookup (d : dict) (k : str) : option json :=
  match d with
  | [] => None
  | (k', v) :: r => if str_eqb k' k then Some v else dict_lookup r k
  end.

(** [k in d] *)
Definition dict_mem (d : dict) (k : str) : bool :=
  match dict_lookup d k with Some _ => true | None => false end.

(** [d.get(k, default)] *)
Definition dict_get (d : dict) (k : str) (default : json) : json :=
  match dict_lookup d k with Some v => v | None => default end.

(** [d[k] = v]: an existing key keeps its place. *)
Fixpoint dict_set (d : dict) (k : str) (v : json) : dict :=
  match d with
  | [] => [(k, v)]
  | (k', x) :: r =>
    if str_eqb k' k then (k', v) :: r else (k', x) :: dict_set r k v
  end.

(** [list(d.values())] *)
Definition dict_values (d : dict) : list json := map snd d.

(** [type(v).__name__] *)
Definition type_name (v : json) : str :=
  match v with
  | JNull => lit "NoneType"
  | JBool _ => lit "bool"
  | JInt _ => lit "int"
  | JFloat _ => lit "float"
  | JStr _ => lit "str"
  | JArr _ => lit "list"
  | JObj _ => lit "dict"
  end.

(** [bool(v)], as [if v:] tests it. *)
Definition truthy (v : json) : bool :=
  match v with
  | JNull => false
  | JBool b => b
  | JInt z => negb (z =? 0)%Z
  | JFloat f => negb (PrimFloat.eqb f PrimFloat.zero)
  | JStr s => str_truthy s
  | JArr l => match l with [] => false | _ => true end
  | JObj d => match d with [] => false | _ => true end
  end.

(** [isinstance(v, str)] *)
Definition is_str (v : json) : bool :=
  match v with JStr _ => true | _ => false end.

(** [sep.join(parts)] *)
Fixpoint join (sep : str) (parts : list str) : str :=
  match parts with
  | [] => []
  | [p] => p
  | p :: r => p ++ sep ++ join sep r
  end.

Definition hex_digit (d : N) : char :=
  if d <? 10 then 0x30 + d else 0x61 + (d - 10).

(** ['\u{0:04x}'.format(n)] *)
Definition u_escape (n : N) : str :=
  [0x5C; 0x75; hex_digit ((n / 0x1000) mod 16); hex_digit ((n / 0x100) mod 16);
   hex_digit ((n / 0x10) mod 16); hex_digit (n mod 16)].

(** One character of [json.encoder.py_encode_basestring_ascii]: the short
    escapes of [ESCAPE_DCT], printable ASCII as it is, the rest as [\uXXXX],
    above the BMP as a surrogate pair. *)
Definition escape_char (c : char) : str :=
  if c =? 0x22 then [0x5C; 0x22]
  else if c =? 0x5C then [0x5C; 0x5C]
  else if c =? 0x0A then [0x5C; 0x6E]
  else if c =? 0x0D then [0x5C; 0x72]
  else if c =? 0x09 then [0x5C; 0x74]
  else if c =? 0x08 then [0x5C; 0x62]
  else if c =? 0x0C then [0x5C; 0x66]
  else if (0x20 <=? c) && (c <=? 0x7E) then [c]
  else if c <? 0x10000 then u_escape c
  else u_escape (N.lor 0xD800 (N.land (N.shiftr (c - 0x10000) 10) 0x3FF))
       ++ u_escape (N.lor 0xDC00 (N.land (c - 0x10000) 0x3FF)).

Definition dumps_str (s : str) : str :=
  [0x22] ++ flat_map escape_char s ++ [0x22].

Section Dumps.

(** [float.__repr__], which belongs to the interpreter. *)
Variable float_repr : float -> str.

(** [json.encoder.floatstr] with [allow_nan=True]. *)
Definition dumps_float (f : float) : str :=
  if negb (PrimFloat.eqb f f) then lit "NaN"
  else if PrimFloat.eqb f PrimFloat.infinity then lit "Infinity"
  else if PrimFloat.eqb f PrimFloat.neg_infinity then lit "-Infinity"
  else float_repr f.

(** [json.dumps(v)] with its defaults: [ensure_ascii=True], separators
    [", "] and [": "], no indentation. *)
Fixpoint dumps (v : json) : str :=
  match v with
  | JNull => lit "null"
  | JBool true => lit "true"
  | JBool false => lit "false"
  | JInt z => int_to_str z
  | JFloat f => dumps_float f
  | JStr s => dumps_str s
  | JArr l => [0x5B] ++ join (lit ", ") (map dumps l) ++ [0x5D]
  | JObj kvs =>
    [0x7B]
    ++ join (lit ", ")
         (map (fun kv => let '(k, x) := kv in dumps_str k ++ lit ": " ++ dumps x)
              kvs)
    ++ [0x7D]
  end.

End Dumps.

(** No float anywhere inside: the rendering is then independent of
    [float_repr]. *)
Fixpoint float_free (v : json) : bool :=
  match v with
  | JFloat _ => false
  | JArr l => forallb float_free l
  | JObj kvs => forallb (fun kv => float_free (snd kv)) kvs
  | _ => true
  end.

End Json.
Import Json.

(** ** The Python runtime around the handlers *)

Module Runtime.

Inductive exn_kind :=
| JSONDecodeError | AttributeError | TypeError | KeyError.

(** A raised exception; [exn_str] is [str(e)], with the texts of
    CPython 3.12.  No result below depends on a message text. *)
Record exn := Exn { exn_kind_of : exn_kind; exn_str : str }.

Definition result (A : Type) : Type := (exn + A)%type.

Definition no_attribute (v : json) (name : str) : exn :=
  Exn AttributeError
    (lit "'" ++ type_name v ++ lit "' object has no attribute '" ++ name ++ lit "'").

Definition not_subscriptable (v : json) : exn :=
  Exn TypeError (lit "'" ++ type_name v ++ lit "' object is not subscriptable").

Definition not_iterable (v : json) : exn :=
  Exn TypeError (lit "'" ++ type_name v ++ lit "' object is not iterable").

Definition no_len (v : json) : exn :=
  Exn TypeError (lit "object of type '" ++ type_name v ++ lit "' has no len()").

Definition unhashable (v : json) : exn :=
  Exn TypeError (lit "unhashable type: '" ++ type_name v ++ lit "'").

(** [v.get(k, default)] *)
Definition py_get (v : json) (k : str) (default : json) : result json :=
  match v with
  | JObj d => inr (dict_get d k default)
  | _ => inl (no_attribute v (lit "get"))
  end.

(** [v[k]] for a string key [k]. *)
Definition py_getitem (v : json) (k : str) : result json :=
  match v with
  | JObj d =>
    match dict_lookup d k with
    | Some x => inr x
    | None => inl (Exn KeyError (lit "'" ++ k ++ lit "'"))
    end
  | JArr _ =>
    inl (Exn TypeError (lit "list indices must be integers or slices, not str"))
  | JStr _ => inl (Exn TypeError (lit "string indices must be integers, not 'str'"))
  | _ => inl (not_subscriptable v)
  end.

(** [v.split()] *)
Definition py_split (v : json) : result (list str) :=
  match v with
  | JStr s => inr (split_ws s)
  | _ => inl (no_attribute v (lit "split"))
  end.

(** [v[:50]] *)
Definition py_slice_50 (v : json) : result json :=
  match v with
  | JStr s => inr (JStr (slice_to 50 s))
  | JArr l => inr (JArr (firstn 50 l))
  | JObj _ => inl (Exn KeyError (lit "slice(None, 50, None)"))
  | _ => inl (not_subscriptable v)
  end.

(** [len(v)] *)
Definition py_len (v : json) : result nat :=
  match v with
  | JStr s => inr (List.length s)
  | JArr l => inr (List.length l)
  | JObj d => inr (List.length d)
  | _ => inl (no_len v)
  end.

(** The values [for x in v] visits. *)
Definition py_iter (v : json) : result (list json) :=
  match v with
  | JArr l => inr l
  | JStr s => inr (map (fun c => JStr [c]) s)
  | JObj d => inr (map (fun kv => JStr (fst kv)) d)
  | _ => inl (not_iterable v)
  end.

(** [v == 'literal'] *)
Definition py_eq_str (v : json) (s : str) : bool :=
  match v with JStr t => str_eqb t s | _ => false end.

(** What the interpreter, the operating system and the libraries supply. *)
Record env := Env {
  now_isoformat : nat -> str;   (* [datetime.now().isoformat()], n-th reading *)
  uuid4_hex : str;               (* [uuid.uuid4().hex] *)
  unix_time : Z;                 (* [int(time.time())] *)
  float_repr : float -> str;     (* [repr] of a float *)
  container_repr : json -> str;  (* [repr] of a list or a dict *)
  hash_value : json -> Z;        (* [hash] of a hashable value *)
  gauss_draws : Z -> nat -> list float
    (* after [random.seed(s)]: [[random.gauss(0, 0.1) for _ in range(n)]] *)
}.

(** [hash(v)] *)
Definition py_hash (E : env) (v : json) : result Z :=
  match v with
  | JArr _ | JObj _ => inl (unhashable v)
  | _ => inr (hash_value E v)
  end.

(** A value inside an f-string: [format(v, '')]. *)
Definition format_value (E : env) (v : json) : str :=
  match v with
  | JStr s => s
  | JNull => lit "None"
  | JBool true => lit "True"
  | JBool false => lit "False"
  | JInt z => int_to_str z
  | JFloat f => float_repr E f
  | _ => container_repr E v
  end.

(** The body of the request, as [await request.json()] sees it: it raises,
    or it returns the parsed value. *)
Inductive request_body :=
| BodyInvalid (e : exn)
| BodyJson (v : json).

(** What a handler passes to [response.write]. *)
Inductive chunk :=
| JsonLine (j : json)   (* [json.dumps(j).encode('utf-8') + b'\n'] *)
| SseData (j : json)    (* [f"data: {json.dumps(j)}\n\n".encode('utf-8')] *)
| SseDone.              (* [b"data: [DONE]\n\n"] *)

Definition sse_done_bytes : bytes :=
  map N_of_ascii (list_ascii_of_string "data: [DONE]") ++ [0x0A; 0x0A].

(** The bytes of a chunk on the wire. *)
Definition wire (E : env) (c : chunk) : bytes :=
  match c with
  | JsonLine j => encode_utf8 (dumps (float_repr E) j) ++ [0x0A]
  | SseData j =>
    encode_utf8 (lit "data: " ++ dumps (float_repr E) j ++ [0x0A; 0x0A])
  | SseDone => sse_done_bytes
  end.

(** What happens on the connection, in order. *)
Inductive event :=
| Prepared (status : Z) (reason : str) (headers : list (str * str))
| Written (c : chunk)
| Slept (ms : N)
| Closed.

(** What a handler returns: the stream response it prepared, or a
    [web.json_response(data, status=...)]. *)
Inductive response :=
| StreamResponse
| JsonResponse (status : Z) (data : json).

Record world := World { trace : list event; clock : nat }.

(** Handler computations: state passing over [world], with exceptions that
    keep the state reached when they are raised. *)
Definition M (A : Type) : Type := world -> world * result A.

Definition ret {A} (a : A) : M A := fun w => (w, inr a).

Definition bind {A B} (m : M A) (k : A -> M B) : M B :=
  fun w =>
    match m w with
    | (w', inr a) => k a w'
    | (w', inl e) => (w', inl e)
    end.

Definition lift {A} (r : result A) : M A := fun w => (w, r).

Definition emit (ev : event) : M unit :=
  fun w => (World (trace w ++ [ev]) (clock w), inr tt).

(** [try: m except Exception as e: h e] *)
Definition try_except {A} (m : M A) (h : exn -> M A) : M A :=
  fun w =>
    match m w with
    | (w', inl e) => h e w'
    | r => r
    end.

Fixpoint for_each {A} (l : list A) (body : A -> M unit) : M unit :=
  match l with
  | [] => ret tt
  | x :: r => bind (body x) (fun _ => for_each r body)
  end.

(** [datetime.now().isoformat()] *)
Definition now (E : env) : M str :=
  fun w => (World (trace w) (S (clock w)), inr (now_isoformat E (clock w))).

Definition prepare (status : Z) (reason : str) (headers : list (str * str))
  : M unit := emit (Prepared status reason headers).
Definition write (c : chunk) : M unit := emit (Written c).
(** [asyncio.sleep(ms / 1000)] *)
Definition sleep (ms : N) : M unit := emit (Slept ms).
Definition write_eof : M unit := emit Closed.

(** [await request.json()] *)
Definition request_json (b : request_body) : M json :=
  match b with
  | BodyInvalid e => lift (inl e)
  | BodyJson v => ret v
  end.

(** What the framework sees of one call of a handler. *)
Record outcome := Outcome {
  out_trace : list event;
  out_result : result response
}.

Definition run (m : M response) : outcome :=
  let (w, r) := m (World [] 0) in Outcome (trace w) r.

End Runtime.
Import Runtime.

Declare Scope py_scope.
Delimit Scope py_scope with py.
Notation "x <- m ;; k" := (bind m (fun x => k))
  (at level 61, m at next level, right associativity) : py_scope.
Notation "m ;; k" := (bind m (fun _ => k))
  (at level 61, right associativity) : py_scope.
Local Open Scope py_scope.

(** ** What both servers share, line for line *)

Module Common.

Definition stream_headers : list (str * str) :=
  [(lit "Content-Type", lit "text/event-stream");
   (lit "Cache-Control", lit "no-cache");
   (lit "Connection", lit "keep-alive")].

Definition of_nat (n : nat) : json := JInt (Z.of_nat n).

(** [[m for m in ms if m['role'] == 'user']] *)
Fixpoint select_user (ms : list json) : result (list json) :=
  match ms with
  | [] => inr []
  | m :: r =>
    match py_getitem m (lit "role") with
    | inl e => inl e
    | inr role =>
      match select_user r with
      | inl e => inl e
      | inr us => inr (if py_eq_str role (lit "user") then m :: us else us)
      end
    end
  end.

(** [user_messages = [m for m in messages if m['role'] == 'user']]
    [last_message = user_messages[-1]['content'] if user_messages else ""] *)
Definition last_message_of (messages : json) : result json :=
  match py_iter messages with
  | inl e => inl e
  | inr ms =>
    match select_user ms with
    | inl e => inl e
    | inr user_messages =>
      match user_messages with
      | [] => inr (JStr [])
      | _ :: _ => py_getitem (last user_messages JNull) (lit "content")
      end
    end
  end.

(** [sum(len(t.split()) for t in ts)] *)
Fixpoint sum_split_lengths (ts : list json) : result nat :=
  match ts with
  | [] => inr 0%nat
  | t :: r =>
    match py_split t with
    | inl e => inl e
    | inr ws =>
      match sum_split_lengths r with
      | inl e => inl e
      | inr n => inr (List.length ws + n)%nat
      end
    end
  end.

(** The full stop [。] at which the chat replies are cut. *)
Definition full_stop : char := 0x3002.

End Common.
Import Common.

(** ** demo_10_1_OllamaCompatibleServer.py *)

Module Ollama.

Section Handlers.

Variable E : env.

(** [except Exception as e: return web.json_response({"error": str(e)}, status=500)] *)
Definition on_exception (e : exn) : M response :=
  ret (JsonResponse 500 (JObj [(lit "error", JStr (exn_str e))])).

(** [f"基于你的提示 '{prompt[:50]}...' 生成的文本。这是一个模拟响应。"] *)
Definition generate_text (head : json) : str :=
  lit "基于你的提示 '" ++ format_value E head
  ++ lit "...' 生成的文本。这是一个模拟响应。".

(** [f"这是对你消息的回复：'{last_message[:50]}...'。这是一个模拟的聊天响应。"] *)
Definition chat_text (head : json) : str :=
  lit "这是对你消息的回复：'" ++ format_value E head
  ++ lit "...'。这是一个模拟的聊天响应。".

Definition generate_delta (model : json) (t : str) (word : str) : json :=
  JObj [(lit "model", model);
        (lit "created_at", JStr (t ++ lit "Z"));
        (lit "response", JStr (word ++ lit " "));
        (lit "done", JBool false)].

Definition generate_done (model : json) (t : str) (text : str)
    (prompt_eval_count eval_count : json) : json :=
  JObj [(lit "model", model);
        (lit "created_at", JStr (t ++ lit "Z"));
        (lit "response", JStr text);
        (lit "done", JBool true);
        (lit "context", JArr [JInt 1; JInt 2; JInt 3]);
        (lit "total_duration", JInt 5000000000);
        (lit "load_duration", JInt 1000000000);
        (lit "prompt_eval_count", prompt_eval_count);
        (lit "prompt_eval_duration", JInt 1000000000);
        (lit "eval_count", eval_count);
        (lit "eval_duration", JInt 4000000000)].

(** [handle_generate], POST /api/generate *)
Definition handle_generate (request : request_body) : M response :=
  try_except
    (data <- request_json request ;;
     model <- lift (py_get data (lit "model") (JStr (lit "llama2:latest"))) ;;
     prompt <- lift (py_get data (lit "prompt") (JStr [])) ;;
     stream <- lift (py_get data (lit "stream") (JBool false)) ;;
     options <- lift (py_get data (lit "options") (JObj [])) ;;
     if truthy stream then
       (prepare 200 (lit "OK") stream_headers ;;
        words <- lift (py_split prompt) ;;
        for_each words (fun word =>
          t <- now E ;;
          write (JsonLine (generate_delta model t word)) ;;
          sleep 100) ;;
        t <- now E ;;
        prompt_words <- lift (py_split prompt) ;;
        write (JsonLine (generate_done model t []
                 (of_nat (List.length prompt_words))
                 (of_nat (List.length words)))) ;;
        write_eof ;;
        ret StreamResponse)
     else
       (t <- now E ;;
        head <- lift (py_slice_50 prompt) ;;
        prompt_words <- lift (py_split prompt) ;;
        ret (JsonResponse 200
               (generate_done model t (generate_text head)
                  (of_nat (List.length prompt_words)) (JInt 100)))))
    on_exception.

Definition chat_message (content : str) : json :=
  JObj [(lit "role", JStr (lit "assistant")); (lit "content", JStr content)].

Definition chat_delta (model : json) (t : str) (sentence : str) : json :=
  JObj [(lit "model", model);
        (lit "created_at", JStr (t ++ lit "Z"));
        (lit "message", chat_message (sentence ++ [full_stop]));
        (lit "done", JBool false)].

Definition chat_done (model : json) (t : str) (content : str)
    (prompt_eval_count eval_count : json) : json :=
  JObj [(lit "model", model);
        (lit "created_at", JStr (t ++ lit "Z"));
        (lit "message", chat_message content);
        (lit "done", JBool true);
        (lit "total_duration", JInt 6000000000);
        (lit "load_duration", JInt 1000000000);
        (lit "prompt_eval_count", prompt_eval_count);
        (lit "prompt_eval_duration", JInt 2000000000);
        (lit "eval_count", eval_count);
        (lit "eval_duration", JInt 3000000000)].

(** [handle_chat], POST /api/chat *)
Definition handle_chat (request : request_body) : M response :=
  try_except
    (data <- request_json request ;;
     model <- lift (py_get data (lit "model") (JStr (lit "llama2:latest"))) ;;
     messages <- lift (py_get data (lit "messages") (JArr [])) ;;
     stream <- lift (py_get data (lit "stream") (JBool false)) ;;
     options <- lift (py_get data (lit "options") (JObj [])) ;;
     last_message <- lift (last_message_of messages) ;;
     if truthy stream then
       (prepare 200 (lit "OK") stream_headers ;;
        head <- lift (py_slice_50 last_message) ;;
        let response_text := chat_text head in
        let sentences := split_on full_stop response_text in
        for_each sentences (fun sentence =>
          if str_truthy (strip sentence) then
            (t <- now E ;;
             write (JsonLine (chat_delta model t sentence)) ;;
             sleep 150)
          else ret tt) ;;
        t <- now E ;;
        prompt_words <- lift (py_split last_message) ;;
        write (JsonLine (chat_done model t []
                 (of_nat (List.length prompt_words))
                 (of_nat (List.length (split_ws response_text))))) ;;
        write_eof ;;
        ret StreamResponse)
     else
       (t <- now E ;;
        head <- lift (py_slice_50 last_message) ;;
        prompt_words <- lift (py_split last_message) ;;
        ret (JsonResponse 200
               (chat_done model t (chat_text head)
                  (of_nat (List.length prompt_words)) (JInt 100)))))
    on_exception.

(** [handle_embed], POST /api/embed *)
Definition handle_embed (request : request_body) : M response :=
  try_except
    (data <- request_json request ;;
     model <- lift (py_get data (lit "model") (JStr (lit "llama2:latest"))) ;;
     input_text <- lift (py_get data (lit "input") (JStr [])) ;;
     h <- lift (py_hash E input_text) ;;
     let embedding := JArr (map JFloat (gauss_draws E (h mod 10000)%Z 4096)) in
     embeddings <-
       (if is_str input_text then ret [embedding]
        else (n <- lift (py_len input_text) ;; ret (repeat embedding n))) ;;
     prompt_eval_count <-
       (if is_str input_text
        then (ws <- lift (py_split input_text) ;; ret (List.length ws))
        else (ts <- lift (py_iter input_text) ;; lift (sum_split_lengths ts))) ;;
     ret (JsonResponse 200
            (JObj [(lit "model", model);
                   (lit "embeddings", JArr embeddings);
                   (lit "total_duration", JInt 100000000);
                   (lit "load_duration", JInt 50000000);
                   (lit "prompt_eval_count", of_nat prompt_eval_count);
                   (lit "prompt_eval_duration", JInt 50000000)])))
    on_exception.

Definition progress_headers : list (str * str) :=
  [(lit "Content-Type", lit "application/json");
   (lit "Cache-Control", lit "no-cache")].

Definition progress (status : string) (completed : Z) : dict :=
  [(lit "status", JStr (lit status)); (lit "completed", JInt completed);
   (lit "total", JInt 100)].

Definition pull_steps : list dict :=
  [[(lit "status", JStr (lit "pulling manifest"))];
   progress "downloading layers" 10;
   progress "downloading layers" 50;
   progress "downloading layers" 100;
   [(lit "status", JStr (lit "verifying sha256 digest"))];
   [(lit "status", JStr (lit "writing manifest"))];
   [(lit "status", JStr (lit "success"))]].

(** [handle_pull], POST /api/pull: no [try] around the body. *)
Definition handle_pull (request : request_body) : M response :=
  data <- request_json request ;;
  model <- lift (py_get data (lit "name") (JStr [])) ;;
  prepare 200 (lit "OK") progress_headers ;;
  for_each pull_steps (fun step =>
    status <- lift (py_getitem (JObj step) (lit "status")) ;;
    let step' :=
      dict_set step (lit "status")
        (JStr (lit "pulling " ++ format_value E model ++ lit ": "
               ++ format_value E status)) in
    write (JsonLine (JObj step')) ;;
    sleep 500) ;;
  write_eof ;;
  ret StreamResponse.



End Handlers.

End Ollama.

(** ** demo_10_2_OpenAICompatibleServer.py *)

Module OpenAI.

(** One entry of [self.models]; the three entries of the source differ in the
    id, the creation time and the id of the permission. *)
Definition model_entry (id : string) (created : Z) (perm : string) : json :=
  JObj [(lit "id", JStr (lit id));
        (lit "object", JStr (lit "model"));
        (lit "created", JInt created);
        (lit "owned_by", JStr (lit "openai"));
        (lit "permission",
          JArr [JObj [(lit "id", JStr (lit perm));
                      (lit "object", JStr (lit "model_permission"));
                      (lit "created", JInt created);
                      (lit "allow_create_engine", JBool false);
                      (lit "allow_sampling", JBool true);
                      (lit "allow_logprobs", JBool true);
                      (lit "allow_search_indices", JBool false);
                      (lit "allow_view", JBool true);
                      (lit "allow_fine_tuning", JBool false);
                      (lit "organization", JStr (lit "*"));
                      (lit "group", JNull);
                      (lit "is_blocking", JBool false)]]);
        (lit "root", JStr (lit id));
        (lit "parent", JNull)].

(** [self.models] *)
Definition models : dict :=
  [(lit "gpt-3.5-turbo", model_entry "gpt-3.5-turbo" 1677610602 "modelperm-123");
   (lit "text-embedding-ada-002",
      model_entry "text-embedding-ada-002" 1671212500 "modelperm-456");
   (lit "gpt-4", model_entry "gpt-4" 1687882411 "modelperm-789")].

Section Handlers.

Variable E : env.

(** [except Exception as e: return web.json_response(
      {"error": {"message": str(e), "type": "server_error"}}, status=500)] *)
Definition on_exception (e : exn) : M response :=
  ret (JsonResponse 500
         (JObj [(lit "error",
                  JObj [(lit "message", JStr (exn_str e));
                        (lit "type", JStr (lit "server_error"))])])).

(** [f"这是对你消息的回复：'{last_message[:50]}...'。这是一个模拟的OpenAI兼容响应。"] *)
Definition chat_text (head : json) : str :=
  lit "这是对你消息的回复：'" ++ format_value E head
  ++ lit "...'。这是一个模拟的OpenAI兼容响应。".

(** [f"基于你的提示 '{prompt[:50]}...' 生成的文本。这是一个模拟OpenAI响应。"] *)
Definition completion_text (head : json) : str :=
  lit "基于你的提示 '" ++ format_value E head
  ++ lit "...' 生成的文本。这是一个模拟OpenAI响应。".

Definition chat_chunk (response_id : str) (model : json) (delta finish_reason : json)
  : json :=
  JObj [(lit "id", JStr response_id);
        (lit "object", JStr (lit "chat.completion.chunk"));
        (lit "created", JInt (unix_time E));
        (lit "model", model);
        (lit "choices",
          JArr [JObj [(lit "index", JInt 0);
                      (lit "delta", delta);
                      (lit "finish_reason", finish_reason)]])].

Definition usage (prompt_tokens : nat) : json :=
  JObj [(lit "prompt_tokens", of_nat prompt_tokens);
        (lit "completion_tokens", JInt 50);
        (lit "total_tokens", JInt (Z.of_nat prompt_tokens + 50))].

(** [handle_chat_completions], POST /v1/chat/completions *)
Definition handle_chat_completions (request : request_body) : M response :=
  try_except
    (data <- request_json request ;;
     model <- lift (py_get data (lit "model") (JStr (lit "gpt-3.5-turbo"))) ;;
     messages <- lift (py_get data (lit "messages") (JArr [])) ;;
     stream <- lift (py_get data (lit "stream") (JBool false)) ;;
     temperature <- lift (py_get data (lit "temperature") (JFloat 0x1.6666666666666p-1%float)) ;;
     max_tokens <- lift (py_get data (lit "max_tokens") (JInt 1000)) ;;
     last_message <- lift (last_message_of messages) ;;
     let response_id := lit "chatcmpl-" ++ uuid4_hex E in
     if truthy stream then
       (prepare 200 (lit "OK") stream_headers ;;
        head <- lift (py_slice_50 last_message) ;;
        let response_text := chat_text head in
        let sentences := split_on full_stop response_text in
        for_each sentences (fun sentence =>
          if str_truthy (strip sentence) then
            (write (SseData
               (chat_chunk response_id model
                  (JObj [(lit "role", JStr (lit "assistant"));
                         (lit "content", JStr (sentence ++ [full_stop]))])
                  JNull)) ;;
             sleep 150)
          else ret tt) ;;
        write (SseData (chat_chunk response_id model (JObj []) (JStr (lit "stop")))) ;;
        write SseDone ;;
        write_eof ;;
        ret StreamResponse)
     else
       (head <- lift (py_slice_50 last_message) ;;
        prompt_words <- lift (py_split last_message) ;;
        ret (JsonResponse 200
               (JObj [(lit "id", JStr response_id);
                      (lit "object", JStr (lit "chat.completion"));
                      (lit "created", JInt (unix_time E));
                      (lit "model", model);
                      (lit "choices",
                        JArr [JObj [(lit "index", JInt 0);
                                    (lit "message",
                                      JObj [(lit "role", JStr (lit "assistant"));
                                            (lit "content", JStr (chat_text head))]);
                                    (lit "finish_reason", JStr (lit "stop"))]]);
                      (lit "usage", usage (List.length prompt_words))]))))
    on_exception.

Definition text_chunk (response_id : str) (model : json) (text : str)
    (finish_reason : json) : json :=
  JObj [(lit "id", JStr response_id);
        (lit "object", JStr (lit "text_completion"));
        (lit "created", JInt (unix_time E));
        (lit "model", model);
        (lit "choices",
          JArr [JObj [(lit "text", JStr text);
                      (lit "index", JInt 0);
                      (lit "logprobs", JNull);
                      (lit "finish_reason", finish_reason)]])].

(** [handle_completions], POST /v1/completions *)
Definition handle_completions (request : request_body) : M response :=
  try_except
    (data <- request_json request ;;
     model <- lift (py_get data (lit "model") (JStr (lit "text-davinci-003"))) ;;
     prompt <- lift (py_get data (lit "prompt") (JStr [])) ;;
     stream <- lift (py_get data (lit "stream") (JBool false)) ;;
     max_tokens <- lift (py_get data (lit "max_tokens") (JInt 100)) ;;
     temperature <- lift (py_get data (lit "temperature") (JFloat 0x1.6666666666666p-1%float)) ;;
     let response_id := lit "cmpl-" ++ uuid4_hex E in
     if truthy stream then
       (prepare 200 (lit "OK") stream_headers ;;
        words <- lift (py_split prompt) ;;
        for_each words (fun word =>
          write (SseData (text_chunk response_id model (word ++ lit " ") JNull)) ;;
          sleep 100) ;;
        write (SseData (text_chunk response_id model [] (JStr (lit "stop")))) ;;
        write SseDone ;;
        write_eof ;;
        ret StreamResponse)
     else
       (head <- lift (py_slice_50 prompt) ;;
        prompt_words <- lift (py_split prompt) ;;
        ret (JsonResponse 200
               (JObj [(lit "id", JStr response_id);
                      (lit "object", JStr (lit "text_completion"));
                      (lit "created", JInt (unix_time E));
                      (lit "model", model);
                      (lit "choices",
                        JArr [JObj [(lit "text", JStr (completion_text head));
                                    (lit "index", JInt 0);
                                    (lit "logprobs", JNull);
                                    (lit "finish_reason", JStr (lit "stop"))]]);
                      (lit "usage", usage (List.length prompt_words))]))))
    on_exception.

(** [for text in inputs: random.seed(hash(text) % 10000); ...] *)
Fixpoint embed_each (inputs : list json) : result (list json) :=
  match inputs with
  | [] => inr []
  | text :: r =>
    match py_hash E text with
    | inl e => inl e
    | inr h =>
      match embed_each r with
      | inl e => inl e
      | inr es =>
        inr (JArr (map JFloat (gauss_draws E (h mod 10000)%Z 1536)) :: es)
      end
    end
  end.

Fixpoint embedding_items (i : nat) (embeddings : list json) : list json :=
  match embeddings with
  | [] => []
  | e :: r =>
    JObj [(lit "object", JStr (lit "embedding"));
          (lit "embedding", e);
          (lit "index", of_nat i)] :: embedding_items (S i) r
  end.

(** [handle_embeddings], POST /v1/embeddings *)
Definition handle_embeddings (request : request_body) : M response :=
  try_except
    (data <- request_json request ;;
     model <- lift (py_get data (lit "model") (JStr (lit "text-embedding-ada-002"))) ;;
     input_text <- lift (py_get data (lit "input") (JStr [])) ;;
     let inputs := if is_str input_text then JArr [input_text] else input_text in
     texts <- lift (py_iter inputs) ;;
     embeddings <- lift (embed_each texts) ;;
     prompt_tokens <- lift (sum_split_lengths texts) ;;
     total_tokens <- lift (sum_split_lengths texts) ;;
     ret (JsonResponse 200
            (JObj [(lit "object", JStr (lit "list"));
                   (lit "data", JArr (embedding_items 0 embeddings));
                   (lit "model", model);
                   (lit "usage",
                     JObj [(lit "prompt_tokens", of_nat prompt_tokens);
                           (lit "total_tokens", of_nat total_tokens)])])))
    on_exception.

(** [handle_retrieve_model], GET /v1/models/{model_id}; [model_id] is
    [request.match_info.get('model_id', '')]. *)
Definition handle_retrieve_model (model_id : str) : M response :=
  match dict_lookup models model_id with
  | Some entry => ret (JsonResponse 200 entry)
  | None =>
    ret (JsonResponse 404
           (JObj [(lit "error",
                    JObj [(lit "message",
                            JStr (lit "The model '" ++ model_id
                                  ++ lit "' does not exist"));
                          (lit "type", JStr (lit "invalid_request_error"));
                          (lit "param", JStr (lit "model_id"));
                          (lit "code", JStr (lit "model_not_found"))])]))
  end.

End Handlers.

(** [handle_list_models], GET /v1/models *)
Definition handle_list_models : M response :=
  ret (JsonResponse 200
         (JObj [(lit "object", JStr (lit "list"));
                (lit "data", JArr (dict_values models))])).

End OpenAI.

(** ** aiohttp_stream_ollama.py *)

Module Client.

(** [bytes.strip()]: the ASCII whitespace bytes. *)
Definition is_ascii_space (b : N) : bool :=
  (b =? 0x20) || ((0x09 <=? b) && (b <=? 0x0D)).

Fixpoint lstrip_bytes (b : bytes) : bytes :=
  match b with
  | c :: r => if is_ascii_space c then lstrip_bytes r else b
  | [] => []
  end.

Definition strip_bytes (b : bytes) : bytes :=
  rev (lstrip_bytes (rev (lstrip_bytes b))).

(** The lines [async for line in resp.content] reads from the body: each up
    to and with its newline, the last one possibly without. *)
Fixpoint lines_from (cur : bytes) (body : bytes) : list bytes :=
  match body with
  | [] => match cur with [] => [] | _ => [cur] end
  | c :: r =>
    if c =? 0x0A then (cur ++ [c]) :: lines_from [] r
    else lines_from (cur ++ [c]) r
  end.

Definition lines_of (body : bytes) : list bytes := lines_from [] body.

(** What [json.loads(line.decode("utf-8"))] does with a line: it returns a
    value, raises [json.JSONDecodeError], or raises something else. *)
Inductive decoded :=
| Value (v : json)
| NotJson (msg : str)
| Failed (msg : str).

(** What the libraries supply to the client. *)
Record library := Library {
  json_loads : bytes -> decoded;
  seconds_text : json -> result str;   (* [f"{v / 1e9:.2f}"] *)
  bytes_repr : bytes -> str            (* [repr] of a bytes object *)
}.

(** What [session.post] gives: it raises [aiohttp.ClientError], or there is
    a response with a status, a text, the lines of its body, and the message
    of the [ClientError] that ends the body if the connection breaks. *)
Inductive reply :=
| PostFailed (msg : str)
| Reply (status : Z) (text : str) (lines : list bytes) (broken : option str).

Inductive notice :=
| Stdout (s : str)
| Stderr (s : str).

(** What a consumer that reads the generator to its end sees. *)
Record session := Session {
  yielded : list json;
  printed : list notice
}.

Section Generator.

Variable E : env.
Variable L : library.

(** [print(f"请求失败: {e}", file=sys.stderr)] *)
Definition request_failed (msg : str) : notice :=
  Stderr (lit "请求失败: " ++ msg).

(** [print(f"未预期错误: {e}", file=sys.stderr)] *)
Definition unexpected (msg : str) : notice :=
  Stderr (lit "未预期错误: " ++ msg).

(** [print(f"[警告] 无法解析流数据行: {line!r} | 错误: {e}", file=sys.stderr)] *)
Definition warning (line : bytes) (msg : str) : notice :=
  Stderr (lit "[警告] 无法解析流数据行: " ++ bytes_repr L line
          ++ lit " | 错误: " ++ msg).

(** The [print] of the line that is done, when it has a total duration. *)
Definition completed (secs : str) (eval_count : json) : notice :=
  Stdout ([0x0A] ++ lit "[模型流式完成] 耗时: " ++ secs
          ++ lit "s, token 数: " ++ format_value E eval_count).

(** The body of [async for line in resp.content], for the lines that are
    left. *)
Fixpoint read_lines (lines : list bytes) (broken : option str) : session :=
  match lines with
  | [] =>
    match broken with
    | Some msg => Session [] [request_failed msg]
    | None => Session [] []
    end
  | raw :: rest =>
    let line := strip_bytes raw in
    match line with
    | [] => read_lines rest broken
    | _ :: _ =>
      match json_loads L line with
      | NotJson msg =>
        let later := read_lines rest broken in
        Session (yielded later) (warning line msg :: printed later)
      | Failed msg => Session [] [unexpected msg]
      | Value (JObj data) =>
        let response_text := dict_get data (lit "response") (JStr []) in
        if truthy (dict_get data (lit "done") (JBool false)) then
          match dict_lookup data (lit "total_duration") with
          | Some total =>
            match seconds_text L total with
            | inl e => Session [] [unexpected (exn_str e)]
            | inr secs =>
              Session []
                [completed secs (dict_get data (lit "eval_count") (JStr (lit "?")))]
            end
          | None => Session [] []
          end
        else if truthy response_text then
          let later := read_lines rest broken in
          Session (response_text :: yielded later) (printed later)
        else read_lines rest broken
      | Value data =>
        Session [] [unexpected (exn_str (no_attribute data (lit "get")))]
      end
    end
  end.

(** [stream_ollama] *)
Definition stream_ollama (r : reply) : session :=
  match r with
  | PostFailed msg => Session [] [request_failed msg]
  | Reply status text lines broken =>
    if (status =? 200)%Z then read_lines lines broken
    else Session []
           [request_failed (lit "Ollama API 返回错误状态 " ++ int_to_str status
                            ++ lit ": " ++ text)]
  end.


End Generator.

End Client.

(** ** Reading an outcome the way a client does *)

Module Observe.

(** [j[k]] when [j] is a dictionary that has the key. *)
Definition field (k : string) (j : json) : option json :=
  match j with
  | JObj d => dict_lookup d (lit k)
  | _ => None
  end.

(** [j[k1][k2]...] *)
Fixpoint at_path (ks : list string) (j : json) : option json :=
  match ks with
  | [] => Some j
  | k :: r =>
    match field k j with
    | Some x => at_path r x
    | None => None
    end
  end.

(** [j["choices"][0]] *)
Definition first_choice (j : json) : option json :=
  match field "choices" j with
  | Some (JArr (c :: _)) => Some c
  | _ => None
  end.

Definition text_of (v : option json) : str :=
  match v with Some (JStr s) => s | _ => [] end.

Definition bind_opt {A B} (o : option A) (f : A -> option B) : option B :=
  match o with Some a => f a | None => None end.

(** Where each protocol keeps the text of an event. *)
Definition generate_text_of (j : json) : str := text_of (field "response" j).
Definition chat_text_of (j : json) : str :=
  text_of (at_path ["message"%string; "content"%string] j).
Definition chat_delta_text_of (j : json) : str :=
  text_of (bind_opt (first_choice j) (at_path ["delta"%string; "content"%string])).
Definition chat_message_text_of (j : json) : str :=
  text_of (bind_opt (first_choice j) (at_path ["message"%string; "content"%string])).
Definition completion_text_of (j : json) : str :=
  text_of (bind_opt (first_choice j) (field "text")).

(** [done] of a line of the line-delimited protocol. *)
Definition is_done (j : json) : bool :=
  match field "done" j with
  | Some (JBool b) => b
  | _ => false
  end.

(** [choices[0].finish_reason] of a chunk of the event-stream protocol. *)
Definition finish_reason (j : json) : option json :=
  bind_opt (first_choice j) (field "finish_reason").

Definition is_final (j : json) : bool :=
  match finish_reason j with
  | Some (JStr s) => str_eqb s (lit "stop")
  | _ => false
  end.

Definition chunk_of (ev : event) : option chunk :=
  match ev with Written c => Some c | _ => None end.

Fixpoint filter_map {A B} (f : A -> option B) (l : list A) : list B :=
  match l with
  | [] => []
  | x :: r =>
    match f x with
    | Some y => y :: filter_map f r
    | None => filter_map f r
    end
  end.

(** The chunks written to the stream, in order. *)
Definition written (o : outcome) : list chunk := filter_map chunk_of (out_trace o).

Definition payload (c : chunk) : option json :=
  match c with
  | JsonLine j | SseData j => Some j
  | SseDone => None
  end.

(** The JSON payloads written to the stream, in order. *)
Definition payloads (o : outcome) : list json := filter_map payload (written o).

(** The concatenation of the texts of the events that are not terminal. *)
Definition streamed_text (terminal : json -> bool) (text : json -> str)
    (o : outcome) : str :=
  List.concat (map text (filter (fun j => negb (terminal j)) (payloads o))).

(** The text of the body of a JSON response. *)
Definition returned_text (text : json -> str) (o : outcome) : option str :=
  match out_result o with
  | inr (JsonResponse _ j) => Some (text j)
  | _ => None
  end.

(** The body of a JSON response. *)
Definition returned_json (o : outcome) : option json :=
  match out_result o with
  | inr (JsonResponse _ j) => Some j
  | _ => None
  end.

(** The request with its [stream] flag set. *)
Definition with_stream (d : dict) (b : bool) : request_body :=
  BodyJson (JObj (dict_set d (lit "stream") (JBool b))).

(** The two shapes of an error body. *)
Definition legacy_error (j : json) : Prop :=
  exists msg, j = JObj [(lit "error", JStr msg)].

Definition openai_error (j : json) : Prop :=
  exists msg ty,
    j = JObj [(lit "error",
                JObj [(lit "message", JStr msg); (lit "type", JStr ty)])].

(** A handler answers with an error response of a given shape. *)
Definition returns_error (shape : json -> Prop) (o : outcome) : Prop :=
  exists status body,
    out_result o = inr (JsonResponse status body)
    /\ (status = 400 \/ status = 500)%Z
    /\ shape body.

(** A body that is not the expected structured payload: [request.json()]
    raises, or what it returns is not a dictionary. *)
Definition unparseable (b : request_body) : Prop :=
  match b with
  | BodyInvalid _ => True
  | BodyJson (JObj _) => False
  | BodyJson _ => True
  end.

End Observe.
Import Observe.

(** ** The grammar of JSON texts (RFC 8259) *)

Module JsonGrammar.

Definition is_ws (c : char) : bool :=
  (c =? 0x20) || (c =? 0x09) || (c =? 0x0A) || (c =? 0x0D).

Definition is_digit (c : char) : bool := (0x30 <=? c) && (c <=? 0x39).


Definition is_hex (c : char) : bool :=
  is_digit c || ((0x41 <=? c) && (c <=? 0x46)) || ((0x61 <=? c) && (c <=? 0x66)).



Definition ws (s : str) : Prop := forallb is_ws s = true.









End JsonGrammar.
Import JsonGrammar.

(** ** The events of each streaming loop *)

Module Frames.

Section Frames.

Variable E : env.

(** The loop of [handle_generate] over [words], the clock read [c] times
    before it. *)
Fixpoint generate_events (model : json) (words : list str) (c : nat)
  : list event :=
  match words with
  | [] => []
  | w :: r =>
    Written (JsonLine (Ollama.generate_delta model (now_isoformat E c) w))
    :: Slept 100 :: generate_events model r (S c)
  end.

(** The loop of [handle_chat] over [sentences]: a blank sentence writes
    nothing and does not read the clock. *)
Fixpoint chat_events (model : json) (sentences : list str) (c : nat)
  : list event :=
  match sentences with
  | [] => []
  | s :: r =>
    if str_truthy (strip s)
    then Written (JsonLine (Ollama.chat_delta model (now_isoformat E c) s))
         :: Slept 150 :: chat_events model r (S c)
    else chat_events model r c
  end.

Definition openai_delta (response_id : str) (model : json) (sentence : str)
  : json :=
  OpenAI.chat_chunk E response_id model
    (JObj [(lit "role", JStr (lit "assistant"));
           (lit "content", JStr (sentence ++ [full_stop]))])
    JNull.

(** The loop of [handle_chat_completions]. *)
Fixpoint chat_completion_events (response_id : str) (model : json)
    (sentences : list str) : list event :=
  match sentences with
  | [] => []
  | s :: r =>
    if str_truthy (strip s)
    then Written (SseData (openai_delta response_id model s))
         :: Slept 150 :: chat_completion_events response_id model r
    else chat_completion_events response_id model r
  end.

(** The loop of [handle_completions]. *)
Fixpoint completion_events (response_id : str) (model : json)
    (words : list str) : list event :=
  match words with
  | [] => []
  | w :: r =>
    Written (SseData
      (OpenAI.text_chunk E response_id model (w ++ lit " ") JNull))
    :: Slept 100 :: completion_events response_id model r
  end.

(** The sentences of a reply that are streamed. *)
Definition spoken (sentences : list str) : list str :=
  filter (fun s => str_truthy (strip s)) sentences.

(** The payloads those loops write, in order. *)
Fixpoint generate_lines (model : json) (words : list str) (c : nat) : list json :=
  match words with
  | [] => []
  | w :: r =>
    Ollama.generate_delta model (now_isoformat E c) w
    :: generate_lines model r (S c)
  end.

Fixpoint chat_lines (model : json) (sentences : list str) (c : nat) : list json :=
  match sentences with
  | [] => []
  | s :: r =>
    if str_truthy (strip s)
    then Ollama.chat_delta model (now_isoformat E c) s :: chat_lines model r (S c)
    else chat_lines model r c
  end.

Definition chat_completion_chunks (response_id : str) (model : json)
    (sentences : list str) : list json :=
  map (openai_delta response_id model) (spoken sentences).

Definition completion_chunks (response_id : str) (model : json)
    (words : list str) : list json :=
  map (fun w => OpenAI.text_chunk E response_id model (w ++ lit " ") JNull) words.

(** No sentence of the reply before the last piece is blank. *)
Definition no_blank_sentence (text : str) : bool :=
  forallb (fun s => str_truthy (strip s)) (removelast (split_on full_stop text)).

End Frames.

End Frames.
Import Frames.

(** ** What is stated about the handlers *)

Module Properties.

(** A word: not empty, no whitespace inside. *)
Definition spaceless (w : str) : Prop := Forall (fun c => is_space c = false) w.

Definition word (w : str) : Prop := w <> [] /\ spaceless w.

(** A fixed environment for the examples below. *)
Definition sample_env : env :=
  Env (fun _ => lit "2025-01-01T00:00:00.000000")
      (lit "0123456789abcdef0123456789abcdef")
      1735689600
      (fun _ => lit "0.0")
      (fun _ => lit "[]")
      (fun _ => 0%Z)
      (fun _ n => repeat PrimFloat.zero n).

(** The source text of a chat request in the spec's words, "the content of
    the last message whose role is user (empty string if none)": the
    messages are searched from the end. *)
Definition role_is_user (m : dict) : bool :=
  match dict_lookup m (lit "role") with
  | Some role => py_eq_str role (lit "user")
  | None => false
  end.

Fixpoint last_user_message (ms : list dict) : option dict :=
  match ms with
  | [] => None
  | m :: r =>
    match last_user_message r with
    | Some found => Some found
    | None => if role_is_user m then Some m else None
    end
  end.

Definition source_text_of (ms : list dict) : result json :=
  match last_user_message ms with
  | Some m => py_getitem (JObj m) (lit "content")
  | None => inr (JStr [])
  end.

(** The message carries a role. *)
Definition has_role (m : dict) : Prop := dict_mem m (lit "role") = true.


(** Printable ASCII: what [json.dumps] is made of when no float is printed. *)
Definition printable (c : char) : Prop := 0x20 <= c <= 0x7E.




(** [b"data: "] *)
Definition sse_prefix : bytes := map N_of_ascii (list_ascii_of_string "data: ").



End Properties.
Import Properties.

(** ** What is stated about the rest of the code *)

Module Sessions.

Import Client.

(** A line the generator passes over: blank once stripped, or refused by
    [json.loads] with a [JSONDecodeError]. *)
Definition is_noise (L : library) (raw : bytes) : bool :=
  match strip_bytes raw with
  | [] => true
  | line =>
    match json_loads L line with
    | NotJson _ => true
    | _ => false
    end
  end.

(** A line that ends the session: it decodes to a dictionary whose [done] is
    true. *)
Definition is_done_line (L : library) (raw : bytes) : bool :=
  match strip_bytes raw with
  | [] => false
  | line =>
    match json_loads L line with
    | Value (JObj data) => truthy (dict_get data (lit "done") (JBool false))
    | _ => false
    end
  end.

(** The value a line contributes: the [response] of the dictionary it decodes
    to. *)
Definition response_of (L : library) (raw : bytes) : option json :=
  match json_loads L (strip_bytes raw) with
  | Value (JObj data) => dict_lookup data (lit "response")
  | _ => None
  end.

(** A library for the examples: a line holding the text [true] decodes to a
    line that is done, one holding [hi] to a delta, any other is refused. *)
Definition sample_library : library :=
  Library
    (fun line =>
       if contains (lit "true") line
       then Value (JObj [(lit "response", JStr []); (lit "done", JBool true)])
       else if contains (lit "hi") line
       then Value (JObj [(lit "response", JStr (lit "hi ")); (lit "done", JBool false)])
       else NotJson (lit "Expecting value: line 1 column 1 (char 0)"))
    (fun _ => inr (lit "5.00"))
    (fun _ => lit "b'...'").

(** The body of a streamed response: the writes, one after the other. *)
Definition body_of (E : env) (o : outcome) : bytes :=
  List.concat (map (wire E) (written o)).

(** The library gives a line of the server back as the value it was printed
    from. *)
Definition decodes (E : env) (L : library) (j : json) : Prop :=
  json_loads L (encode_utf8 (dumps (float_repr E) j)) = Value j.

(** What the generator yields from lines that decode to [js]. *)
Fixpoint yields_of (js : list json) : list json :=
  match js with
  | JObj data :: rest =>
    if truthy (dict_get data (lit "done") (JBool false)) then []
    else if truthy (dict_get data (lit "response") (JStr []))
         then dict_get data (lit "response") (JStr []) :: yields_of rest
         else yields_of rest
  | _ => []
  end.

(** A library that knows the lines of one stream and nothing else. *)
Definition table_library (E : env) (js : list json) : library :=
  Library
    (fun line =>
       match find (fun j => str_eqb (encode_utf8 (dumps (float_repr E) j)) line) js with
       | Some j => Value j
       | None => NotJson (lit "Expecting value: line 1 column 1 (char 0)")
       end)
    (fun _ => inr (lit "5.00"))
    (fun _ => lit "b'...'").

(** A payload of the line-delimited protocol as the client needs it. *)
Definition readable (E : env) (L : library) (j : json) : Prop :=
  (exists kvs, j = JObj kvs) /\ float_free j = true /\ decodes E L j.

(** [await asyncio.sleep(...)] among the events. *)
Definition pause_of (ev : event) : option N :=
  match ev with Slept ms => Some ms | _ => None end.

(** The pauses of a handler, in order, in milliseconds. *)
Definition sleeps (o : outcome) : list N := filter_map pause_of (out_trace o).

(** What happens on a stream between its preparation and its end: writes
    and pauses. *)
Definition is_io (ev : event) : bool :=
  match ev with
  | Written _ | Slept _ => true
  | _ => false
  end.

(** A stream that was prepared, written to and closed, in that order and
    once each. *)
Definition complete_stream (o : outcome) : Prop :=
  out_result o = inr StreamResponse
  /\ exists middle,
       out_trace o = Prepared 200 (lit "OK") stream_headers :: middle ++ [Closed]
       /\ forallb is_io middle = true.

(** A JSON answer with status 200, and nothing sent before it. *)
Definition plain_answer (o : outcome) : Prop :=
  exists j, out_result o = inr (JsonResponse 200 j) /\ out_trace o = [].

(** The 500 error response of a surface; the stream was not prepared, or it
    was prepared and is left open. *)
Definition failed_request (shape : json -> Prop) (o : outcome) : Prop :=
  exists j,
    out_result o = inr (JsonResponse 500 j) /\ shape j
    /\ (out_trace o = []
        \/ exists middle,
             out_trace o = Prepared 200 (lit "OK") stream_headers :: middle
             /\ forallb is_io middle = true).

(** The three ways a generation handler ends. *)
Definition settled (shape : json -> Prop) (o : outcome) : Prop :=
  complete_stream o \/ plain_answer o \/ failed_request shape o.

(** The [created_at] of a line that carries the [k]-th reading of the clock. *)
Definition stamp (E : env) (k : nat) : option json :=
  Some (JStr (now_isoformat E k ++ lit "Z")).

(** What the chunks of one event stream have in common. *)
Definition chunk_header (E : env) (id : str) (object : string) (model : json)
    (j : json) : Prop :=
  field "id" j = Some (JStr id)
  /\ field "object" j = Some (JStr (lit object))
  /\ field "created" j = Some (JInt (unix_time E))
  /\ field "model" j = Some model.

End Sessions.
Import Sessions.

(** * Facts *)

(** ** Strings *)

Example lit_ni_hao : lit "你好" = [0x4F60; 0x597D].
Proof. reflexivity. Qed.

Example split_ws_ex :
  split_ws (lit "  hello   wide world ") = [lit "hello"; lit "wide"; lit "world"].
Proof. reflexivity. Qed.

Example split_on_ex :
  split_on full_stop (lit "甲。乙。") = [lit "甲"; lit "乙"; []].
Proof. reflexivity. Qed.

Example strip_ex : strip (lit "  a b  ") = lit "a b".
Proof. reflexivity. Qed.

Example int_to_str_ex : int_to_str (-5000000000) = lit "-5000000000".
Proof. reflexivity. Qed.

Lemma str_eqb_refl (s : str) : str_eqb s s = true.
Proof.
  induction s as [|c s IH]; simpl; [reflexivity|].
  now rewrite N.eqb_refl.
Qed.

Lemma str_eqb_eq (a b : str) : str_eqb a b = true <-> a = b.
Proof.
  split.
  - revert b; induction a as [|x a IH]; intros [|y b]; simpl; try discriminate.
    + reflexivity.
    + intros H. apply andb_true_iff in H as [Hxy Hab].
      apply N.eqb_eq in Hxy. now rewrite Hxy, (IH b Hab).
  - intros ->. apply str_eqb_refl.
Qed.





(** [sep.join(s.split(sep)) == s], in the form the chat loops use it. *)
Lemma split_on_from_concat (sep : char) (cur s : str) :
  List.concat (map (fun x => x ++ [sep]) (split_on_from sep cur s))
  = cur ++ s ++ [sep].
Proof.
  revert cur; induction s as [|c s IH]; intros cur; simpl.
  - now rewrite app_nil_r.
  - destruct (c =? sep) eqn:Hc.
    + apply N.eqb_eq in Hc; subst c. simpl. rewrite IH.
      rewrite <- app_assoc. reflexivity.
    + rewrite IH, <- app_assoc. reflexivity.
Qed.

Lemma split_on_from_snoc (sep : char) (cur s : str) :
  split_on_from sep cur (s ++ [sep]) = split_on_from sep cur s ++ [[]].
Proof.
  revert cur; induction s as [|c s IH]; intros cur; simpl.
  - now rewrite N.eqb_refl.
  - destruct (c =? sep); [simpl; f_equal|]; apply IH.
Qed.

Lemma removelast_snoc {A} (l : list A) (x : A) : removelast (l ++ [x]) = l.
Proof. now rewrite removelast_app, app_nil_r. Qed.

Lemma filter_all {A} (f : A -> bool) (l : list A) :
  forallb f l = true -> filter f l = l.
Proof.
  induction l as [|x l IH]; simpl; [reflexivity|].
  intros H; apply andb_true_iff in H as [Hx Hl].
  now rewrite Hx, IH.
Qed.

(** When a reply ends with a full stop and none of its sentences is blank,
    the sentences the chat loops send, each with its full stop back, make up
    the reply. *)
Lemma spoken_concat (body : str) :
  no_blank_sentence (body ++ [full_stop]) = true ->
  List.concat (map (fun s => s ++ [full_stop])
                 (spoken (split_on full_stop (body ++ [full_stop]))))
  = body ++ [full_stop].
Proof.
  unfold no_blank_sentence, spoken, split_on.
  rewrite split_on_from_snoc, removelast_snoc.
  intros H. rewrite filter_app, (filter_all _ _ H). simpl.
  rewrite app_nil_r. apply split_on_from_concat.
Qed.

(** ** Running a handler, one statement at a time *)

Section Steps.

Context {A B : Type}.
Variables (k : A -> M B) (ku : unit -> M B) (w : world).

Lemma bind_ret (a : A) : bind (ret a) k w = k a w.
Proof. reflexivity. Qed.

Lemma bind_lift_ok (a : A) : bind (lift (inr a)) k w = k a w.
Proof. reflexivity. Qed.

Lemma bind_lift_raise (e : exn) : bind (lift (inl e)) k w = (w, inl e).
Proof. reflexivity. Qed.

Lemma bind_emit (ev : event) :
  bind (emit ev) ku w = ku tt (World (trace w ++ [ev]) (clock w)).
Proof. reflexivity. Qed.

Lemma bind_prepare status reason headers :
  bind (prepare status reason headers) ku w
  = ku tt (World (trace w ++ [Prepared status reason headers]) (clock w)).
Proof. reflexivity. Qed.

Lemma bind_write (c : chunk) :
  bind (write c) ku w = ku tt (World (trace w ++ [Written c]) (clock w)).
Proof. reflexivity. Qed.

Lemma bind_sleep (ms : N) :
  bind (sleep ms) ku w = ku tt (World (trace w ++ [Slept ms]) (clock w)).
Proof. reflexivity. Qed.

Lemma bind_write_eof :
  bind write_eof ku w = ku tt (World (trace w ++ [Closed]) (clock w)).
Proof. reflexivity. Qed.

End Steps.

Lemma bind_now {B} (E : env) (k : str -> M B) (w : world) :
  bind (now E) k w
  = k (now_isoformat E (clock w)) (World (trace w) (S (clock w))).
Proof. reflexivity. Qed.

Lemma bind_request_json {B} (v : json) (k : json -> M B) (w : world) :
  bind (request_json (BodyJson v)) k w = k v w.
Proof. reflexivity. Qed.

Lemma bind_get {B} (d : dict) (key : str) (default : json)
    (k : json -> M B) (w : world) :
  bind (lift (py_get (JObj d) key default)) k w = k (dict_get d key default) w.
Proof. reflexivity. Qed.

Lemma bind_split {B} (s : str) (k : list str -> M B) (w : world) :
  bind (lift (py_split (JStr s))) k w = k (split_ws s) w.
Proof. reflexivity. Qed.

Lemma bind_slice {B} (s : str) (k : json -> M B) (w : world) :
  bind (lift (py_slice_50 (JStr s))) k w = k (JStr (slice_to 50 s)) w.
Proof. reflexivity. Qed.

Lemma bind_assoc {A B C} (m : M A) (f : A -> M B) (g : B -> M C) (w : world) :
  bind (bind m f) g w = bind m (fun x => bind (f x) g) w.
Proof. unfold bind. destruct (m w) as [w' [e|a]]; reflexivity. Qed.

Ltac py_step :=
  first
    [ rewrite bind_request_json | rewrite bind_get | rewrite bind_split
    | rewrite bind_slice | rewrite bind_now | rewrite bind_prepare
    | rewrite bind_write | rewrite bind_sleep | rewrite bind_write_eof
    | rewrite bind_lift_ok | rewrite bind_ret ];
  cbv beta; cbn [trace clock].

Ltac py_run := repeat py_step.

(** The four streaming loops write the events listed in [Frames]. *)
Lemma for_each_generate (E : env) (model : json) (words : list str) (w : world) :
  for_each words (fun word =>
    t <- now E ;;
    write (JsonLine (Ollama.generate_delta model t word)) ;;
    sleep 100) w
  = (World (trace w ++ generate_events E model words (clock w))
       (clock w + List.length words), inr tt).
Proof.
  revert w; induction words as [|x words IH]; intros [tr c]; simpl.
  - unfold ret. now rewrite app_nil_r, Nat.add_0_r.
  - rewrite bind_assoc, bind_now; cbv beta.
    rewrite bind_assoc, bind_write, bind_sleep, IH. simpl.
    now rewrite <- !app_assoc, Nat.add_succ_r.
Qed.

Lemma for_each_chat (E : env) (model : json) (sentences : list str) (w : world) :
  for_each sentences (fun sentence =>
    if str_truthy (strip sentence) then
      (t <- now E ;;
       write (JsonLine (Ollama.chat_delta model t sentence)) ;;
       sleep 150)
    else ret tt) w
  = (World (trace w ++ chat_events E model sentences (clock w))
       (clock w + List.length (spoken sentences)), inr tt).
Proof.
  revert w; induction sentences as [|x sentences IH]; intros [tr c];
    cbn [for_each chat_events spoken filter].
  - unfold ret. cbn. now rewrite app_nil_r, Nat.add_0_r.
  - destruct (str_truthy (strip x)).
    + rewrite bind_assoc, bind_now; cbv beta.
      rewrite bind_assoc, bind_write, bind_sleep, IH. cbn.
      now rewrite <- !app_assoc, Nat.add_succ_r.
    + rewrite bind_ret. apply IH.
Qed.

Lemma for_each_chat_completion (E : env) (response_id : str) (model : json)
    (sentences : list str) (w : world) :
  for_each sentences (fun sentence =>
    if str_truthy (strip sentence) then
      (write (SseData
         (OpenAI.chat_chunk E response_id model
            (JObj [(lit "role", JStr (lit "assistant"));
                   (lit "content", JStr (sentence ++ [full_stop]))])
            JNull)) ;;
       sleep 150)
    else ret tt) w
  = (World (trace w ++ chat_completion_events E response_id model sentences)
       (clock w), inr tt).
Proof.
  revert w; induction sentences as [|x sentences IH]; intros [tr c]; simpl.
  - unfold ret. now rewrite app_nil_r.
  - destruct (str_truthy (strip x)).
    + rewrite bind_assoc, bind_write, bind_sleep, IH. simpl.
      now rewrite <- !app_assoc.
    + rewrite bind_ret. apply IH.
Qed.

Lemma for_each_completion (E : env) (response_id : str) (model : json)
    (words : list str) (w : world) :
  for_each words (fun word =>
    write (SseData
      (OpenAI.text_chunk E response_id model (word ++ lit " ") JNull)) ;;
    sleep 100) w
  = (World (trace w ++ completion_events E response_id model words)
       (clock w), inr tt).
Proof.
  revert w; induction words as [|x words IH]; intros [tr c]; simpl.
  - unfold ret. now rewrite app_nil_r.
  - rewrite bind_assoc, bind_write, bind_sleep, IH. simpl.
    now rewrite <- !app_assoc.
Qed.

Lemma bind_done {A B} (m : M A) (k : A -> M B) (w w' : world) (a : A) :
  m w = (w', inr a) -> bind m k w = k a w'.
Proof. unfold bind. now intros ->. Qed.

(** ** What each handler does on a request of the expected types *)

Section Runs.

Variable E : env.
Variable d : dict.

Local Abbreviation stream := (dict_get d (lit "stream") (JBool false)).
Local Abbreviation prompt := (dict_get d (lit "prompt") (JStr [])).
Local Abbreviation messages := (dict_get d (lit "messages") (JArr [])).

Lemma generate_stream_run (p : str) :
  truthy stream = true -> prompt = JStr p ->
  let model := dict_get d (lit "model") (JStr (lit "llama2:latest")) in
  let n := List.length (split_ws p) in
  run (Ollama.handle_generate E (BodyJson (JObj d)))
  = Outcome
      (Prepared 200 (lit "OK") stream_headers
       :: generate_events E model (split_ws p) 0
       ++ [Written (JsonLine (Ollama.generate_done model (now_isoformat E n) []
                                (of_nat n) (of_nat n)));
           Closed])
      (inr StreamResponse).
Proof.
  intros Hs Hp model n.
  unfold run, Ollama.handle_generate, try_except.
  py_run. rewrite Hs, Hp. py_run.
  erewrite bind_done; [|apply for_each_generate]. py_run.
  unfold ret. cbn [trace clock Nat.add app]. now rewrite <- !app_assoc.
Qed.

Lemma generate_once_run (p : str) :
  truthy stream = false -> prompt = JStr p ->
  let model := dict_get d (lit "model") (JStr (lit "llama2:latest")) in
  run (Ollama.handle_generate E (BodyJson (JObj d)))
  = Outcome []
      (inr (JsonResponse 200
              (Ollama.generate_done model (now_isoformat E 0)
                 (Ollama.generate_text E (JStr (slice_to 50 p)))
                 (of_nat (List.length (split_ws p))) (JInt 100)))).
Proof.
  intros Hs Hp model.
  unfold run, Ollama.handle_generate, try_except.
  py_run. rewrite Hs, Hp. py_run. reflexivity.
Qed.

Lemma chat_stream_run (s : str) :
  truthy stream = true -> last_message_of messages = inr (JStr s) ->
  let model := dict_get d (lit "model") (JStr (lit "llama2:latest")) in
  let text := Ollama.chat_text E (JStr (slice_to 50 s)) in
  let sentences := split_on full_stop text in
  run (Ollama.handle_chat E (BodyJson (JObj d)))
  = Outcome
      (Prepared 200 (lit "OK") stream_headers
       :: chat_events E model sentences 0
       ++ [Written (JsonLine
             (Ollama.chat_done model
                (now_isoformat E (List.length (spoken sentences))) []
                (of_nat (List.length (split_ws s)))
                (of_nat (List.length (split_ws text)))));
           Closed])
      (inr StreamResponse).
Proof.
  intros Hs Hm model text sentences.
  unfold run, Ollama.handle_chat, try_except.
  py_run. rewrite Hm, Hs. py_run.
  erewrite bind_done; [|apply for_each_chat]. py_run.
  unfold ret. cbn [trace clock Nat.add app]. now rewrite <- !app_assoc.
Qed.

Lemma chat_once_run (s : str) :
  truthy stream = false -> last_message_of messages = inr (JStr s) ->
  let model := dict_get d (lit "model") (JStr (lit "llama2:latest")) in
  run (Ollama.handle_chat E (BodyJson (JObj d)))
  = Outcome []
      (inr (JsonResponse 200
              (Ollama.chat_done model (now_isoformat E 0)
                 (Ollama.chat_text E (JStr (slice_to 50 s)))
                 (of_nat (List.length (split_ws s))) (JInt 100)))).
Proof.
  intros Hs Hm model.
  unfold run, Ollama.handle_chat, try_except.
  py_run. rewrite Hm, Hs. py_run. reflexivity.
Qed.

Lemma chat_completions_stream_run (s : str) :
  truthy stream = true -> last_message_of messages = inr (JStr s) ->
  let model := dict_get d (lit "model") (JStr (lit "gpt-3.5-turbo")) in
  let id := lit "chatcmpl-" ++ uuid4_hex E in
  let sentences :=
    split_on full_stop (OpenAI.chat_text E (JStr (slice_to 50 s))) in
  run (OpenAI.handle_chat_completions E (BodyJson (JObj d)))
  = Outcome
      (Prepared 200 (lit "OK") stream_headers
       :: chat_completion_events E id model sentences
       ++ [Written (SseData
             (OpenAI.chat_chunk E id model (JObj []) (JStr (lit "stop"))));
           Written SseDone;
           Closed])
      (inr StreamResponse).
Proof.
  intros Hs Hm model id sentences.
  unfold run, OpenAI.handle_chat_completions, try_except.
  py_run. rewrite Hm, Hs. py_run.
  erewrite bind_done; [|apply for_each_chat_completion]. py_run.
  unfold ret. cbn [trace clock app]. now rewrite <- !app_assoc.
Qed.

Lemma chat_completions_once_run (s : str) :
  truthy stream = false -> last_message_of messages = inr (JStr s) ->
  let model := dict_get d (lit "model") (JStr (lit "gpt-3.5-turbo")) in
  let id := lit "chatcmpl-" ++ uuid4_hex E in
  run (OpenAI.handle_chat_completions E (BodyJson (JObj d)))
  = Outcome []
      (inr (JsonResponse 200
        (JObj [(lit "id", JStr id);
               (lit "object", JStr (lit "chat.completion"));
               (lit "created", JInt (unix_time E));
               (lit "model", model);
               (lit "choices",
                 JArr [JObj [(lit "index", JInt 0);
                             (lit "message",
                               JObj [(lit "role", JStr (lit "assistant"));
                                     (lit "content",
                                       JStr (OpenAI.chat_text E
                                               (JStr (slice_to 50 s))))]);
                             (lit "finish_reason", JStr (lit "stop"))]]);
               (lit "usage", OpenAI.usage (List.length (split_ws s)))]))).
Proof.
  intros Hs Hm model id.
  unfold run, OpenAI.handle_chat_completions, try_except.
  py_run. rewrite Hm, Hs. py_run. reflexivity.
Qed.

Lemma completions_stream_run (p : str) :
  truthy stream = true -> prompt = JStr p ->
  let model := dict_get d (lit "model") (JStr (lit "text-davinci-003")) in
  let id := lit "cmpl-" ++ uuid4_hex E in
  run (OpenAI.handle_completions E (BodyJson (JObj d)))
  = Outcome
      (Prepared 200 (lit "OK") stream_headers
       :: completion_events E id model (split_ws p)
       ++ [Written (SseData
             (OpenAI.text_chunk E id model [] (JStr (lit "stop"))));
           Written SseDone;
           Closed])
      (inr StreamResponse).
Proof.
  intros Hs Hp model id.
  unfold run, OpenAI.handle_completions, try_except.
  py_run. rewrite Hs, Hp. py_run.
  erewrite bind_done; [|apply for_each_completion]. py_run.
  unfold ret. cbn [trace clock app]. now rewrite <- !app_assoc.
Qed.

Lemma completions_once_run (p : str) :
  truthy stream = false -> prompt = JStr p ->
  let model := dict_get d (lit "model") (JStr (lit "text-davinci-003")) in
  let id := lit "cmpl-" ++ uuid4_hex E in
  run (OpenAI.handle_completions E (BodyJson (JObj d)))
  = Outcome []
      (inr (JsonResponse 200
        (JObj [(lit "id", JStr id);
               (lit "object", JStr (lit "text_completion"));
               (lit "created", JInt (unix_time E));
               (lit "model", model);
               (lit "choices",
                 JArr [JObj [(lit "text",
                               JStr (OpenAI.completion_text E
                                       (JStr (slice_to 50 p))));
                             (lit "index", JInt 0);
                             (lit "logprobs", JNull);
                             (lit "finish_reason", JStr (lit "stop"))]]);
               (lit "usage", OpenAI.usage (List.length (split_ws p)))]))).
Proof.
  intros Hs Hp model id.
  unfold run, OpenAI.handle_completions, try_except.
  py_run. rewrite Hs, Hp. py_run. reflexivity.
Qed.

End Runs.

(** ** Dictionaries *)

Lemma dict_lookup_in (d : dict) (k : str) (v : json) :
  dict_lookup d k = Some v -> In (k, v) d.
Proof.
  induction d as [|[k' x] d IH]; simpl; [discriminate|].
  destruct (str_eqb k' k) eqn:Hk.
  - apply str_eqb_eq in Hk. intros [= ->]. left. now rewrite Hk.
  - intros H. right. now apply IH.
Qed.

Lemma dict_lookup_keys (d : dict) (k : str) :
  In k (map fst d) <-> exists v, dict_lookup d k = Some v.
Proof.
  induction d as [|[k' x] d IH]; simpl.
  - split; [contradiction | intros [v Hv]; discriminate].
  - destruct (str_eqb k' k) eqn:Hk.
    + apply str_eqb_eq in Hk. split; [intros _; now exists x | now left].
    + rewrite <- IH. split; [|now right].
      intros [H|H]; [|assumption].
      subst k'. now rewrite str_eqb_refl in Hk.
Qed.

(** ** The claims *)

(** C8: GET /v1/models/{model_id} answers a registered id with status 200 and
    the metadata the registry holds for it, and every other id with status 404
    and a structured error object whose code is ["model_not_found"]. *)
Theorem retrieve_model_by_registry (model_id : str) :
  (In model_id (map fst OpenAI.models) ->
   exists entry,
     In (model_id, entry) OpenAI.models
     /\ field "id" entry = Some (JStr model_id)
     /\ run (OpenAI.handle_retrieve_model model_id)
        = Outcome [] (inr (JsonResponse 200 entry)))
  /\ (~ In model_id (map fst OpenAI.models) ->
      exists body,
        run (OpenAI.handle_retrieve_model model_id)
        = Outcome [] (inr (JsonResponse 404 body))
        /\ at_path ["error"%string; "code"%string] body
           = Some (JStr (lit "model_not_found"))).
Proof.
  unfold OpenAI.handle_retrieve_model. split.
  - intros Hin. apply dict_lookup_keys in Hin as [entry Hentry].
    exists entry. pose proof (dict_lookup_in _ _ Hentry) as Hreg.
    split; [exact Hreg|]. split; [|now rewrite Hentry].
    destruct Hreg as [H|[H|[H|[]]]]; injection H as <- <-; reflexivity.
  - intros Hout.
    destruct (dict_lookup OpenAI.models model_id) as [entry|] eqn:Hl.
    + exfalso. apply Hout. apply dict_lookup_keys. now exists entry.
    + eexists. split; reflexivity.
Qed.

Example retrieve_gpt4 :
  run (OpenAI.handle_retrieve_model (lit "gpt-4"))
  = Outcome []
      (inr (JsonResponse 200 (OpenAI.model_entry "gpt-4" 1687882411 "modelperm-789"))).
Proof. reflexivity. Qed.

Example retrieve_unknown :
  bind_opt (returned_json (run (OpenAI.handle_retrieve_model (lit "llama2"))))
    (at_path ["error"%string; "message"%string])
  = Some (JStr (lit "The model 'llama2' does not exist")).
Proof. reflexivity. Qed.

(** C9: the non-streaming chat completion for the single user message
    [你好] has a message content that contains [你好], finish reason
    ["stop"], and a usage whose three counts are non-negative integers with
    total_tokens = prompt_tokens + completion_tokens. *)
Theorem chat_completion_ni_hao (E : env) :
  let request :=
    BodyJson (JObj [(lit "messages",
                      JArr [JObj [(lit "role", JStr (lit "user"));
                                  (lit "content", JStr (lit "你好"))]]);
                    (lit "stream", JBool false)]) in
  exists j prompt_tokens completion_tokens total_tokens,
    run (OpenAI.handle_chat_completions E request)
    = Outcome [] (inr (JsonResponse 200 j))
    /\ contains (lit "你好") (chat_message_text_of j) = true
    /\ finish_reason j = Some (JStr (lit "stop"))
    /\ at_path ["usage"%string; "prompt_tokens"%string] j = Some (JInt prompt_tokens)
    /\ at_path ["usage"%string; "completion_tokens"%string] j
       = Some (JInt completion_tokens)
    /\ at_path ["usage"%string; "total_tokens"%string] j = Some (JInt total_tokens)
    /\ (0 <= prompt_tokens /\ 0 <= completion_tokens /\ 0 <= total_tokens
        /\ total_tokens = prompt_tokens + completion_tokens)%Z.
Proof.
  intros request. unfold request.
  eexists _, 1%Z, 50%Z, 51%Z.
  split; [apply (@chat_completions_once_run E _ (lit "你好")); reflexivity|].
  repeat split; try reflexivity; discriminate.
Qed.

(** C10: on every /api/embed request whose [input] is a list, [hash] raises
    before the type of the input is tested: the answer is the 500 error
    response of the Ollama-style surface, nothing is written, and the branch
    that repeats the embedding once per element is not reached. *)
Theorem embed_list_input_fails (E : env) (d : dict) (l : list json)
    (Hinput : dict_lookup d (lit "input") = Some (JArr l)) :
  run (Ollama.handle_embed E (BodyJson (JObj d)))
  = Outcome []
      (inr (JsonResponse 500
              (JObj [(lit "error", JStr (lit "unhashable type: 'list'"))])))
  /\ returns_error legacy_error (run (Ollama.handle_embed E (BodyJson (JObj d)))).
Proof.
  assert (Hrun : run (Ollama.handle_embed E (BodyJson (JObj d)))
                 = Outcome []
                     (inr (JsonResponse 500
                        (JObj [(lit "error",
                                 JStr (lit "unhashable type: 'list'"))])))).
  { assert (Hget : dict_get d (lit "input") (JStr []) = JArr l)
      by (unfold dict_get; now rewrite Hinput).
    unfold run, Ollama.handle_embed, try_except. py_run.
    rewrite !Hget. cbn [py_hash]. rewrite bind_lift_raise. reflexivity. }
  split; [exact Hrun|].
  rewrite Hrun. exists 500%Z. eexists. split; [reflexivity|].
  split; [now right | now eexists].
Qed.

Lemma embed_list_input_fails_witness :
  run (Ollama.handle_embed sample_env
         (BodyJson (JObj [(lit "model", JStr (lit "llama2:latest"));
                          (lit "input", JArr [JStr (lit "a"); JStr (lit "b")])])))
  = Outcome []
      (inr (JsonResponse 500
              (JObj [(lit "error", JStr (lit "unhashable type: 'list'"))]))).
Proof.
  apply (@embed_list_input_fails sample_env
           [(lit "model", JStr (lit "llama2:latest"));
            (lit "input", JArr [JStr (lit "a"); JStr (lit "b")])]
           [JStr (lit "a"); JStr (lit "b")]).
  reflexivity.
Defined.

(** The same request with a string as input is answered with one embedding. *)
Example embed_str_input :
  bind_opt (returned_json
              (run (Ollama.handle_embed sample_env
                      (BodyJson (JObj [(lit "input", JStr (lit "a b"))])))))
    (field "prompt_eval_count")
  = Some (JInt 2).
Proof. vm_compute. reflexivity. Qed.

(** C6: a streaming generate request with the empty prompt writes no delta
    and exactly one line, the terminal one: [done] is true, the response is
    empty and [eval_count] is 0. *)
Theorem generate_stream_empty_prompt (E : env) (d : dict)
    (Hstream : truthy (dict_get d (lit "stream") (JBool false)) = true)
    (Hprompt : dict_get d (lit "prompt") (JStr []) = JStr []) :
  exists line,
    out_result (run (Ollama.handle_generate E (BodyJson (JObj d))))
    = inr StreamResponse
    /\ written (run (Ollama.handle_generate E (BodyJson (JObj d))))
       = [JsonLine line]
    /\ is_done line = true
    /\ field "response" line = Some (JStr [])
    /\ field "eval_count" line = Some (JInt 0)
    /\ filter (fun j => negb (is_done j))
         (payloads (run (Ollama.handle_generate E (BodyJson (JObj d))))) = [].
Proof.
  rewrite (generate_stream_run E d Hstream Hprompt).
  eexists. split; [reflexivity|].
  split; [reflexivity|].
  repeat split; reflexivity.
Qed.

Lemma generate_stream_empty_prompt_witness :
  exists line,
    out_result (run (Ollama.handle_generate sample_env
                       (BodyJson (JObj [(lit "prompt", JStr []);
                                        (lit "stream", JBool true)]))))
    = inr StreamResponse
    /\ written (run (Ollama.handle_generate sample_env
                       (BodyJson (JObj [(lit "prompt", JStr []);
                                        (lit "stream", JBool true)]))))
       = [JsonLine line]
    /\ is_done line = true
    /\ field "response" line = Some (JStr [])
    /\ field "eval_count" line = Some (JInt 0)
    /\ filter (fun j => negb (is_done j))
         (payloads (run (Ollama.handle_generate sample_env
                       (BodyJson (JObj [(lit "prompt", JStr []);
                                        (lit "stream", JBool true)]))))) = [].
Proof.
  apply (@generate_stream_empty_prompt sample_env
           [(lit "prompt", JStr []); (lit "stream", JBool true)]);
    reflexivity.
Defined.

(** The two error shapes have no body in common. *)
Lemma error_shapes_apart (j : json) : ~ (legacy_error j /\ openai_error j).
Proof.
  intros [[msg Hl] [msg' [ty Ho]]]. rewrite Hl in Ho. discriminate.
Qed.

(** C2, as the handlers behave: the six handlers that wrap their body in
    [try ... except Exception] (generate, chat, embed; chat completions,
    completions, embeddings) answer a body that is not the expected
    structured payload with status 500, never 400, without writing anything;
    the body of the answer is [{"error": str(e)}] on the Ollama-style surface
    and [{"error": {"message": str(e), "type": "server_error"}}] on the
    OpenAI-style surface, and no body has both shapes. *)
Theorem unparseable_body_is_500 (E : env) (request : request_body)
    (Hbad : unparseable request) :
  exists e : exn,
    let legacy :=
      Outcome [] (inr (JsonResponse 500 (JObj [(lit "error", JStr (exn_str e))]))) in
    let openai :=
      Outcome []
        (inr (JsonResponse 500
                (JObj [(lit "error",
                         JObj [(lit "message", JStr (exn_str e));
                               (lit "type", JStr (lit "server_error"))])]))) in
    run (Ollama.handle_generate E request) = legacy
    /\ run (Ollama.handle_chat E request) = legacy
    /\ run (Ollama.handle_embed E request) = legacy
    /\ run (OpenAI.handle_chat_completions E request) = openai
    /\ run (OpenAI.handle_completions E request) = openai
    /\ run (OpenAI.handle_embeddings E request) = openai
    /\ returns_error legacy_error legacy
    /\ returns_error openai_error openai
    /\ forall j, ~ (legacy_error j /\ openai_error j).
Proof.
  assert (Hshapes : forall e,
    returns_error legacy_error
      (Outcome [] (inr (JsonResponse 500 (JObj [(lit "error", JStr (exn_str e))]))))
    /\ returns_error openai_error
         (Outcome []
            (inr (JsonResponse 500
                    (JObj [(lit "error",
                             JObj [(lit "message", JStr (exn_str e));
                                   (lit "type", JStr (lit "server_error"))])]))))).
  { intros e. split; exists 500%Z; eexists;
      (split; [reflexivity|]); (split; [now right|]).
    - now eexists.
    - now eexists _, _. }
  destruct request as [e|v].
  - exists e. cbv zeta. repeat (split; [reflexivity|]).
    split; [apply Hshapes|]. split; [apply Hshapes | apply error_shapes_apart].
  - exists (no_attribute v (lit "get")). cbv zeta.
    destruct v; try contradiction; repeat (split; [reflexivity|]);
      (split; [apply Hshapes|]); (split; [apply Hshapes | apply error_shapes_apart]).
Qed.

Lemma unparseable_body_is_500_witness :
  exists e : exn,
    run (Ollama.handle_generate sample_env (BodyJson (JArr [JInt 1; JInt 2])))
    = Outcome [] (inr (JsonResponse 500 (JObj [(lit "error", JStr (exn_str e))])))
    /\ run (OpenAI.handle_completions sample_env (BodyJson (JArr [JInt 1; JInt 2])))
       = Outcome []
           (inr (JsonResponse 500
                   (JObj [(lit "error",
                            JObj [(lit "message", JStr (exn_str e));
                                  (lit "type", JStr (lit "server_error"))])]))).
Proof.
  destruct (@unparseable_body_is_500 sample_env (BodyJson (JArr [JInt 1; JInt 2])) I)
    as [e (Hg & _ & _ & _ & Hc & _)].
  exists e. split; assumption.
Defined.

Example unparseable_message :
  returned_json (run (Ollama.handle_chat sample_env (BodyJson (JArr []))))
  = Some (JObj [(lit "error", JStr (lit "'list' object has no attribute 'get'"))]).
Proof. reflexivity. Qed.

(** C2, as stated, fails on /api/pull: the handler has no [try], so the
    exception of [request.json()] leaves it and no error response is
    returned. *)
Lemma pull_unparseable_body_raises :
  let request :=
    BodyInvalid (Exn JSONDecodeError
                   (lit "Expecting value: line 1 column 1 (char 0)")) in
  unparseable request
  /\ run (Ollama.handle_pull sample_env request)
     = Outcome []
         (inl (Exn JSONDecodeError
                 (lit "Expecting value: line 1 column 1 (char 0)")))
  /\ ~ returns_error legacy_error (run (Ollama.handle_pull sample_env request)).
Proof.
  cbv zeta. split; [exact I|]. split; [reflexivity|].
  intros (status & body & Hr & _). discriminate Hr.
Qed.

(** ** The source text of a chat request *)

Lemma select_user_filter (ms : list dict) :
  Forall has_role ms ->
  select_user (map JObj ms) = inr (map JObj (filter role_is_user ms)).
Proof.
  induction 1 as [|m ms Hm _ IH]; [reflexivity|].
  cbn [map select_user filter py_getitem]. unfold role_is_user at 1.
  unfold has_role, dict_mem in Hm.
  destruct (dict_lookup m (lit "role")) as [role|]; [|discriminate].
  rewrite IH. now destruct (py_eq_str role (lit "user")).
Qed.

Lemma last_user_message_filter (ms : list dict) :
  last_user_message ms
  = match filter role_is_user ms with
    | [] => None
    | us => Some (last us [])
    end.
Proof.
  induction ms as [|m ms IH]; [reflexivity|].
  cbn [last_user_message filter]. rewrite IH.
  destruct (role_is_user m), (filter role_is_user ms) as [|u us]; reflexivity.
Qed.

Lemma last_map_obj (us : list dict) :
  us <> [] -> last (map JObj us) JNull = JObj (last us []).
Proof.
  induction us as [|u us IH]; [contradiction|]. intros _.
  destruct us as [|u' us]; [reflexivity|].
  change (last (map JObj (u' :: us)) JNull = JObj (last (u' :: us) [])).
  apply IH. discriminate.
Qed.

Lemma last_message_of_source (ms : list dict) :
  Forall has_role ms -> last_message_of (JArr (map JObj ms)) = source_text_of ms.
Proof.
  intros Hroles. unfold last_message_of, source_text_of.
  cbn [py_iter]. rewrite (select_user_filter Hroles), last_user_message_filter.
  destruct (filter role_is_user ms) as [|u us] eqn:Hf; [reflexivity|].
  cbn [map]. change (JObj u :: map JObj us) with (map JObj (u :: us)).
  now rewrite last_map_obj.
Qed.

Lemma dict_lookup_set_other (d : dict) (k k' : str) (v : json) :
  str_eqb k k' = false -> dict_lookup (dict_set d k v) k' = dict_lookup d k'.
Proof.
  intros Hk. induction d as [|[k0 x] d IH]; simpl.
  - now rewrite Hk.
  - destruct (str_eqb k0 k) eqn:H0; simpl.
    + apply str_eqb_eq in H0; subst k0. now rewrite Hk.
    + now rewrite IH.
Qed.

Lemma dict_lookup_set_same (d : dict) (k : str) (v : json) :
  dict_lookup (dict_set d k v) k = Some v.
Proof.
  induction d as [|[k0 x] d IH]; simpl.
  - now rewrite str_eqb_refl.
  - destruct (str_eqb k0 k) eqn:H0; simpl; now rewrite H0.
Qed.

Lemma dict_get_set_other (d : dict) (k k' : str) (v default : json) :
  str_eqb k k' = false ->
  dict_get (dict_set d k v) k' default = dict_get d k' default.
Proof. intros Hk. unfold dict_get. now rewrite dict_lookup_set_other. Qed.

Lemma dict_get_set_same (d : dict) (k : str) (v default : json) :
  dict_get (dict_set d k v) k default = v.
Proof. unfold dict_get. now rewrite dict_lookup_set_same. Qed.

(** C7: when every message carries a role, the text a chat handler derives
    its reply from is the content of the last message whose role is user, and
    the empty string when there is none; a prompt handler derives its reply
    from the prompt itself. *)
Theorem source_text_is_last_user_content (E : env) (d : dict) (ms : list dict)
    (Hmessages : dict_get d (lit "messages") (JArr []) = JArr (map JObj ms))
    (Hroles : Forall has_role ms) :
  last_message_of (dict_get d (lit "messages") (JArr [])) = source_text_of ms
  /\ (last_user_message ms = None ->
      last_message_of (dict_get d (lit "messages") (JArr [])) = inr (JStr []))
  /\ (forall s, source_text_of ms = inr (JStr s) ->
      returned_text chat_text_of (run (Ollama.handle_chat E (with_stream d false)))
      = Some (Ollama.chat_text E (JStr (slice_to 50 s)))
      /\ returned_text chat_message_text_of
           (run (OpenAI.handle_chat_completions E (with_stream d false)))
         = Some (OpenAI.chat_text E (JStr (slice_to 50 s)))
      /\ bind_opt (returned_json (run (Ollama.handle_chat E (with_stream d false))))
           (field "prompt_eval_count")
         = Some (of_nat (List.length (split_ws s))))
  /\ (forall p, dict_get d (lit "prompt") (JStr []) = JStr p ->
      returned_text generate_text_of
        (run (Ollama.handle_generate E (with_stream d false)))
      = Some (Ollama.generate_text E (JStr (slice_to 50 p)))
      /\ returned_text completion_text_of
           (run (OpenAI.handle_completions E (with_stream d false)))
         = Some (OpenAI.completion_text E (JStr (slice_to 50 p)))
      /\ bind_opt (returned_json
                     (run (Ollama.handle_generate E (with_stream d false))))
           (field "prompt_eval_count")
         = Some (of_nat (List.length (split_ws p)))).
Proof.
  assert (Hsource : last_message_of (dict_get d (lit "messages") (JArr []))
                    = source_text_of ms)
    by (rewrite Hmessages; now apply last_message_of_source).
  split; [exact Hsource|].
  split; [intros Hnone; rewrite Hsource; unfold source_text_of; now rewrite Hnone|].
  unfold with_stream. split.
  - intros s Hs. rewrite <- Hsource in Hs.
    rewrite (@chat_once_run E _ s), (@chat_completions_once_run E _ s);
      rewrite ?dict_get_set_same, ?dict_get_set_other;
      try reflexivity; try assumption.
    repeat split; reflexivity.
  - intros p Hp.
    rewrite (@generate_once_run E _ p), (@completions_once_run E _ p);
      rewrite ?dict_get_set_same, ?dict_get_set_other;
      try reflexivity; try assumption.
    repeat split; reflexivity.
Qed.

Lemma source_text_is_last_user_content_witness :
  let ms :=
    [[(lit "role", JStr (lit "user")); (lit "content", JStr (lit "first"))];
     [(lit "role", JStr (lit "assistant")); (lit "content", JStr (lit "reply"))];
     [(lit "role", JStr (lit "user")); (lit "content", JStr (lit "second"))];
     [(lit "role", JStr (lit "system")); (lit "content", JStr (lit "rules"))]] in
  last_message_of
    (dict_get [(lit "messages", JArr (map JObj ms))] (lit "messages") (JArr []))
  = inr (JStr (lit "second")).
Proof.
  cbv zeta.
  refine (eq_trans
            (proj1 (@source_text_is_last_user_content sample_env
                      [(lit "messages", JArr (map JObj _))] _ eq_refl _)) _).
  - repeat constructor.
  - reflexivity.
Defined.

(** ** What the streaming loops write *)

Lemma filter_map_app {A B} (f : A -> option B) (l1 l2 : list A) :
  filter_map f (l1 ++ l2) = filter_map f l1 ++ filter_map f l2.
Proof.
  induction l1 as [|x l1 IH]; simpl; [reflexivity|].
  destruct (f x); simpl; now rewrite IH.
Qed.

Lemma filter_map_some {A B} (f : A -> option B) (g : B -> A) (l : list B) :
  (forall b, f (g b) = Some b) -> filter_map f (map g l) = l.
Proof.
  intros Hfg. induction l as [|b l IH]; simpl; [reflexivity|].
  now rewrite Hfg, IH.
Qed.

Lemma generate_events_written (E : env) (model : json) (words : list str) (c : nat) :
  filter_map chunk_of (generate_events E model words c)
  = map JsonLine (generate_lines E model words c).
Proof.
  revert c; induction words as [|w words IH]; intros c; simpl; [reflexivity|].
  now rewrite IH.
Qed.

Lemma chat_events_written (E : env) (model : json) (sentences : list str) (c : nat) :
  filter_map chunk_of (chat_events E model sentences c)
  = map JsonLine (chat_lines E model sentences c).
Proof.
  revert c; induction sentences as [|x sentences IH]; intros c; simpl;
    [reflexivity|].
  destruct (str_truthy (strip x)); simpl; now rewrite IH.
Qed.

Lemma chat_completion_events_written (E : env) (id : str) (model : json)
    (sentences : list str) :
  filter_map chunk_of (chat_completion_events E id model sentences)
  = map SseData (chat_completion_chunks E id model sentences).
Proof.
  unfold chat_completion_chunks, spoken.
  induction sentences as [|x sentences IH]; simpl; [reflexivity|].
  destruct (str_truthy (strip x)); simpl; now rewrite IH.
Qed.

Lemma completion_events_written (E : env) (id : str) (model : json)
    (words : list str) :
  filter_map chunk_of (completion_events E id model words)
  = map SseData (completion_chunks E id model words).
Proof.
  unfold completion_chunks.
  induction words as [|w words IH]; simpl; [reflexivity|].
  now rewrite IH.
Qed.

(** The chunks of a completed stream: those of the loop, then the closing
    ones. *)
Lemma written_stream (status : Z) (reason : str) (headers : list (str * str))
    (loop closing : list event) (r : result response) :
  written (Outcome (Prepared status reason headers :: loop ++ closing) r)
  = filter_map chunk_of loop ++ filter_map chunk_of closing.
Proof. unfold written. cbn [out_trace filter_map chunk_of]. apply filter_map_app. Qed.

Lemma payloads_lines (lines : list json) (closing : list chunk) :
  filter_map payload (map JsonLine lines ++ closing)
  = lines ++ filter_map payload closing.
Proof. rewrite filter_map_app. f_equal. now apply filter_map_some. Qed.

Lemma payloads_chunks (chunks : list json) (closing : list chunk) :
  filter_map payload (map SseData chunks ++ closing)
  = chunks ++ filter_map payload closing.
Proof. rewrite filter_map_app. f_equal. now apply filter_map_some. Qed.

Lemma filter_keep {A} (f : A -> bool) (l : list A) :
  Forall (fun x => f x = true) l -> filter f l = l.
Proof.
  induction 1 as [|x l Hx _ IH]; simpl; [reflexivity|].
  now rewrite Hx, IH.
Qed.

(** The lines of the loops are not terminal, and carry the words and the
    sentences. *)
Lemma generate_lines_open (E : env) (model : json) (words : list str) (c : nat) :
  Forall (fun j => negb (is_done j) = true) (generate_lines E model words c).
Proof.
  revert c; induction words as [|w words IH]; intros c; simpl; constructor;
    [reflexivity | apply IH].
Qed.

Lemma generate_lines_text (E : env) (model : json) (words : list str) (c : nat) :
  map generate_text_of (generate_lines E model words c)
  = map (fun w => w ++ lit " ") words.
Proof.
  revert c; induction words as [|w words IH]; intros c; simpl; [reflexivity|].
  now rewrite IH.
Qed.

Lemma chat_lines_open (E : env) (model : json) (sentences : list str) (c : nat) :
  Forall (fun j => negb (is_done j) = true) (chat_lines E model sentences c).
Proof.
  revert c; induction sentences as [|x sentences IH]; intros c; simpl;
    [constructor|].
  destruct (str_truthy (strip x)); [constructor; [reflexivity|]|]; apply IH.
Qed.

Lemma chat_lines_text (E : env) (model : json) (sentences : list str) (c : nat) :
  map chat_text_of (chat_lines E model sentences c)
  = map (fun s => s ++ [full_stop]) (spoken sentences).
Proof.
  unfold spoken.
  revert c; induction sentences as [|x sentences IH]; intros c; simpl;
    [reflexivity|].
  destruct (str_truthy (strip x)); simpl; now rewrite IH.
Qed.

Lemma chat_completion_chunks_open (E : env) (id : str) (model : json)
    (sentences : list str) :
  Forall (fun j => finish_reason j = Some JNull /\ negb (is_final j) = true)
    (chat_completion_chunks E id model sentences).
Proof.
  unfold chat_completion_chunks.
  induction (spoken sentences) as [|x l IH]; simpl; constructor;
    [split; reflexivity | apply IH].
Qed.

Lemma chat_completion_chunks_text (E : env) (id : str) (model : json)
    (sentences : list str) :
  map chat_delta_text_of (chat_completion_chunks E id model sentences)
  = map (fun s => s ++ [full_stop]) (spoken sentences).
Proof.
  unfold chat_completion_chunks. rewrite map_map. reflexivity.
Qed.

Lemma completion_chunks_open (E : env) (id : str) (model : json)
    (words : list str) :
  Forall (fun j => finish_reason j = Some JNull /\ negb (is_final j) = true)
    (completion_chunks E id model words).
Proof.
  unfold completion_chunks.
  induction words as [|w words IH]; simpl; constructor;
    [split; reflexivity | apply IH].
Qed.

Lemma completion_chunks_text (E : env) (id : str) (model : json)
    (words : list str) :
  map completion_text_of (completion_chunks E id model words)
  = map (fun w => w ++ lit " ") words.
Proof.
  unfold completion_chunks. rewrite map_map. reflexivity.
Qed.

(** ** The chunks of each stream *)

Section Streams.

Variable E : env.
Variable d : dict.

Local Abbreviation stream := (dict_get d (lit "stream") (JBool false)).
Local Abbreviation prompt := (dict_get d (lit "prompt") (JStr [])).
Local Abbreviation messages := (dict_get d (lit "messages") (JArr [])).

Lemma generate_stream_written (p : str) :
  truthy stream = true -> prompt = JStr p ->
  let model := dict_get d (lit "model") (JStr (lit "llama2:latest")) in
  let n := List.length (split_ws p) in
  written (run (Ollama.handle_generate E (BodyJson (JObj d))))
  = map JsonLine
      (generate_lines E model (split_ws p) 0
       ++ [Ollama.generate_done model (now_isoformat E n) [] (of_nat n) (of_nat n)]).
Proof.
  intros Hs Hp model n. rewrite (generate_stream_run E d Hs Hp).
  rewrite written_stream, generate_events_written, map_app. reflexivity.
Qed.

Lemma chat_stream_written (s : str) :
  truthy stream = true -> last_message_of messages = inr (JStr s) ->
  let model := dict_get d (lit "model") (JStr (lit "llama2:latest")) in
  let text := Ollama.chat_text E (JStr (slice_to 50 s)) in
  let sentences := split_on full_stop text in
  written (run (Ollama.handle_chat E (BodyJson (JObj d))))
  = map JsonLine
      (chat_lines E model sentences 0
       ++ [Ollama.chat_done model
             (now_isoformat E (List.length (spoken sentences))) []
             (of_nat (List.length (split_ws s)))
             (of_nat (List.length (split_ws text)))]).
Proof.
  intros Hs Hm model text sentences. rewrite (chat_stream_run E d Hs Hm).
  rewrite written_stream, chat_events_written, map_app. reflexivity.
Qed.

Lemma chat_completions_stream_written (s : str) :
  truthy stream = true -> last_message_of messages = inr (JStr s) ->
  let model := dict_get d (lit "model") (JStr (lit "gpt-3.5-turbo")) in
  let id := lit "chatcmpl-" ++ uuid4_hex E in
  let sentences :=
    split_on full_stop (OpenAI.chat_text E (JStr (slice_to 50 s))) in
  written (run (OpenAI.handle_chat_completions E (BodyJson (JObj d))))
  = map SseData
      (chat_completion_chunks E id model sentences
       ++ [OpenAI.chat_chunk E id model (JObj []) (JStr (lit "stop"))])
    ++ [SseDone].
Proof.
  intros Hs Hm model id sentences.
  rewrite (chat_completions_stream_run E d Hs Hm).
  rewrite written_stream, chat_completion_events_written, map_app, <- app_assoc.
  reflexivity.
Qed.

Lemma completions_stream_written (p : str) :
  truthy stream = true -> prompt = JStr p ->
  let model := dict_get d (lit "model") (JStr (lit "text-davinci-003")) in
  let id := lit "cmpl-" ++ uuid4_hex E in
  written (run (OpenAI.handle_completions E (BodyJson (JObj d))))
  = map SseData
      (completion_chunks E id model (split_ws p)
       ++ [OpenAI.text_chunk E id model [] (JStr (lit "stop"))])
    ++ [SseDone].
Proof.
  intros Hs Hp model id. rewrite (completions_stream_run E d Hs Hp).
  rewrite written_stream, completion_events_written, map_app, <- app_assoc.
  reflexivity.
Qed.

End Streams.

Lemma payloads_written (o : outcome) (js : list json) (closing : list chunk) :
  written o = map JsonLine js ++ closing ->
  payloads o = js ++ filter_map payload closing.
Proof. unfold payloads. intros ->. apply payloads_lines. Qed.

Lemma payloads_written_sse (o : outcome) (js : list json) (closing : list chunk) :
  written o = map SseData js ++ closing ->
  payloads o = js ++ filter_map payload closing.
Proof. unfold payloads. intros ->. apply payloads_chunks. Qed.

(** The text of a stream whose payloads are [lines], none of them terminal,
    followed by one terminal payload. *)
Lemma streamed_text_of_lines (terminal : json -> bool) (text : json -> str)
    (o : outcome) (lines : list json) (final : json) :
  payloads o = lines ++ [final] ->
  Forall (fun j => negb (terminal j) = true) lines ->
  terminal final = true ->
  streamed_text terminal text o = List.concat (map text lines).
Proof.
  intros Hp Hopen Hfinal. unfold streamed_text. rewrite Hp, filter_app.
  rewrite (filter_keep _ Hopen). cbn [filter]. rewrite Hfinal. cbn [negb].
  now rewrite app_nil_r.
Qed.

Arguments streamed_text_of_lines : clear implicits.

Section StreamedTexts.

Variable E : env.
Variable d : dict.

Local Abbreviation stream := (dict_get d (lit "stream") (JBool false)).
Local Abbreviation prompt := (dict_get d (lit "prompt") (JStr [])).
Local Abbreviation messages := (dict_get d (lit "messages") (JArr [])).

Lemma generate_streamed_text (p : str) :
  truthy stream = true -> prompt = JStr p ->
  streamed_text is_done generate_text_of
    (run (Ollama.handle_generate E (BodyJson (JObj d))))
  = List.concat (map (fun w => w ++ lit " ") (split_ws p)).
Proof.
  intros Hs Hp.
  pose proof (generate_stream_written E d Hs Hp) as Hw. cbv zeta in Hw.
  rewrite <- (app_nil_r (map JsonLine _)) in Hw.
  apply payloads_written in Hw. cbn [filter_map] in Hw. rewrite app_nil_r in Hw.
  rewrite (streamed_text_of_lines _ _ _ _ _ Hw).
  - now rewrite generate_lines_text.
  - apply generate_lines_open.
  - reflexivity.
Qed.

Lemma chat_streamed_text (s : str) :
  truthy stream = true -> last_message_of messages = inr (JStr s) ->
  streamed_text is_done chat_text_of (run (Ollama.handle_chat E (BodyJson (JObj d))))
  = List.concat
      (map (fun x => x ++ [full_stop])
         (spoken (split_on full_stop (Ollama.chat_text E (JStr (slice_to 50 s)))))).
Proof.
  intros Hs Hm.
  pose proof (chat_stream_written E d Hs Hm) as Hw. cbv zeta in Hw.
  rewrite <- (app_nil_r (map JsonLine _)) in Hw.
  apply payloads_written in Hw. cbn [filter_map] in Hw. rewrite app_nil_r in Hw.
  rewrite (streamed_text_of_lines _ _ _ _ _ Hw).
  - now rewrite chat_lines_text.
  - apply chat_lines_open.
  - reflexivity.
Qed.

Lemma chat_completions_streamed_text (s : str) :
  truthy stream = true -> last_message_of messages = inr (JStr s) ->
  streamed_text is_final chat_delta_text_of
    (run (OpenAI.handle_chat_completions E (BodyJson (JObj d))))
  = List.concat
      (map (fun x => x ++ [full_stop])
         (spoken (split_on full_stop (OpenAI.chat_text E (JStr (slice_to 50 s)))))).
Proof.
  intros Hs Hm.
  pose proof (chat_completions_stream_written E d Hs Hm) as Hw. cbv zeta in Hw.
  apply payloads_written_sse in Hw. cbn [filter_map payload] in Hw.
  rewrite app_nil_r in Hw.
  rewrite (streamed_text_of_lines _ _ _ _ _ Hw).
  - now rewrite chat_completion_chunks_text.
  - eapply Forall_impl; [|apply chat_completion_chunks_open]. now intros j [_ H].
  - reflexivity.
Qed.

Lemma completions_streamed_text (p : str) :
  truthy stream = true -> prompt = JStr p ->
  streamed_text is_final completion_text_of
    (run (OpenAI.handle_completions E (BodyJson (JObj d))))
  = List.concat (map (fun w => w ++ lit " ") (split_ws p)).
Proof.
  intros Hs Hp.
  pose proof (completions_stream_written E d Hs Hp) as Hw. cbv zeta in Hw.
  apply payloads_written_sse in Hw. cbn [filter_map payload] in Hw.
  rewrite app_nil_r in Hw.
  rewrite (streamed_text_of_lines _ _ _ _ _ Hw).
  - now rewrite completion_chunks_text.
  - eapply Forall_impl; [|apply completion_chunks_open]. now intros j [_ H].
  - reflexivity.
Qed.

End StreamedTexts.

(** ** The two modes of one request *)

Lemma ollama_chat_text_ends (E : env) (head : json) :
  Ollama.chat_text E head
  = (lit "这是对你消息的回复：'" ++ format_value E head
     ++ lit "...'。这是一个模拟的聊天响应") ++ [full_stop].
Proof. unfold Ollama.chat_text. now rewrite <- !app_assoc. Qed.

Lemma openai_chat_text_ends (E : env) (head : json) :
  OpenAI.chat_text E head
  = (lit "这是对你消息的回复：'" ++ format_value E head
     ++ lit "...'。这是一个模拟的OpenAI兼容响应") ++ [full_stop].
Proof. unfold OpenAI.chat_text. now rewrite <- !app_assoc. Qed.

Section Modes.

Variable E : env.
Variable d : dict.

Lemma stream_on : truthy (dict_get (dict_set d (lit "stream") (JBool true))
                            (lit "stream") (JBool false)) = true.
Proof. now rewrite dict_get_set_same. Qed.

Lemma stream_off : truthy (dict_get (dict_set d (lit "stream") (JBool false))
                             (lit "stream") (JBool false)) = false.
Proof. now rewrite dict_get_set_same. Qed.

Lemma prompt_kept (b : bool) :
  dict_get (dict_set d (lit "stream") (JBool b)) (lit "prompt") (JStr [])
  = dict_get d (lit "prompt") (JStr []).
Proof. now apply dict_get_set_other. Qed.

Lemma messages_kept (b : bool) :
  dict_get (dict_set d (lit "stream") (JBool b)) (lit "messages") (JArr [])
  = dict_get d (lit "messages") (JArr []).
Proof. now apply dict_get_set_other. Qed.

End Modes.

(** C1, as the handlers behave.  For the two chat handlers, when the source
    text is a string and no sentence of the reply before its last piece is
    blank, the non-streaming content is the concatenation of the contents of
    the streamed deltas.  For the two prompt handlers the streamed fragments
    are the words of the prompt, each followed by a space, and the
    non-streaming text is the fixed template around the first 50 characters
    of the prompt. *)
Theorem chat_modes_agree (E : env) (d : dict) (s : str)
    (Hsource : last_message_of (dict_get d (lit "messages") (JArr []))
               = inr (JStr s))
    (Hlegacy : no_blank_sentence (Ollama.chat_text E (JStr (slice_to 50 s)))
               = true)
    (Hopenai : no_blank_sentence (OpenAI.chat_text E (JStr (slice_to 50 s)))
               = true) :
  (returned_text chat_text_of (run (Ollama.handle_chat E (with_stream d false)))
   = Some (streamed_text is_done chat_text_of
             (run (Ollama.handle_chat E (with_stream d true)))))
  /\ (returned_text chat_message_text_of
        (run (OpenAI.handle_chat_completions E (with_stream d false)))
      = Some (streamed_text is_final chat_delta_text_of
                (run (OpenAI.handle_chat_completions E (with_stream d true)))))
  /\ (forall p, dict_get d (lit "prompt") (JStr []) = JStr p ->
      let spaced := List.concat (map (fun w => w ++ lit " ") (split_ws p)) in
      streamed_text is_done generate_text_of
        (run (Ollama.handle_generate E (with_stream d true))) = spaced
      /\ returned_text generate_text_of
           (run (Ollama.handle_generate E (with_stream d false)))
         = Some (Ollama.generate_text E (JStr (slice_to 50 p)))
      /\ streamed_text is_final completion_text_of
           (run (OpenAI.handle_completions E (with_stream d true))) = spaced
      /\ returned_text completion_text_of
           (run (OpenAI.handle_completions E (with_stream d false)))
         = Some (OpenAI.completion_text E (JStr (slice_to 50 p)))).
Proof.
  unfold with_stream.
  assert (Hm : forall b,
    last_message_of (dict_get (dict_set d (lit "stream") (JBool b))
                       (lit "messages") (JArr [])) = inr (JStr s))
    by (intros b; now rewrite messages_kept).
  split; [|split].
  - rewrite (chat_once_run E _ (stream_off d) (Hm false)).
    rewrite (chat_streamed_text E _ (stream_on d) (Hm true)).
    cbn [returned_text out_result].
    rewrite ollama_chat_text_ends in Hlegacy |- *.
    now rewrite (spoken_concat _ Hlegacy).
  - rewrite (chat_completions_once_run E _ (stream_off d) (Hm false)).
    rewrite (chat_completions_streamed_text E _ (stream_on d) (Hm true)).
    cbn [returned_text out_result].
    rewrite openai_chat_text_ends in Hopenai |- *.
    now rewrite (spoken_concat _ Hopenai).
  - intros p Hp.
    assert (Hp' : forall b,
      dict_get (dict_set d (lit "stream") (JBool b)) (lit "prompt") (JStr [])
      = JStr p) by (intros b; now rewrite prompt_kept).
    rewrite (generate_streamed_text E _ (stream_on d) (Hp' true)).
    rewrite (completions_streamed_text E _ (stream_on d) (Hp' true)).
    rewrite (generate_once_run E _ (stream_off d) (Hp' false)).
    rewrite (completions_once_run E _ (stream_off d) (Hp' false)).
    repeat split; reflexivity.
Qed.

Lemma chat_modes_agree_witness :
  let d := [(lit "messages",
              JArr [JObj [(lit "role", JStr (lit "user"));
                          (lit "content", JStr (lit "你好。今天天气怎么样？"))]])] in
  returned_text chat_text_of
    (run (Ollama.handle_chat sample_env (with_stream d false)))
  = Some (streamed_text is_done chat_text_of
            (run (Ollama.handle_chat sample_env (with_stream d true)))).
Proof.
  cbv zeta.
  refine (proj1 (@chat_modes_agree sample_env _ (lit "你好。今天天气怎么样？") _ _ _));
    reflexivity.
Defined.

(** C1, as stated, fails twice: on /api/generate the stream carries the words
    of the prompt and the single answer the template; on /api/chat a source
    text with two full stops in a row makes the loop skip a blank sentence,
    and the full stop that closed it is lost. *)
Lemma modes_differ :
  let d := [(lit "prompt", JStr (lit "hi"))] in
  let c := [(lit "messages",
              JArr [JObj [(lit "role", JStr (lit "user"));
                          (lit "content", JStr [full_stop; full_stop])]])] in
  streamed_text is_done generate_text_of
    (run (Ollama.handle_generate sample_env (with_stream d true)))
  = lit "hi "
  /\ returned_text generate_text_of
       (run (Ollama.handle_generate sample_env (with_stream d false)))
     = Some (lit "基于你的提示 'hi...' 生成的文本。这是一个模拟响应。")
  /\ returned_text generate_text_of
       (run (Ollama.handle_generate sample_env (with_stream d false)))
     <> Some (streamed_text is_done generate_text_of
                (run (Ollama.handle_generate sample_env (with_stream d true))))
  /\ streamed_text is_done chat_text_of
       (run (Ollama.handle_chat sample_env (with_stream c true)))
     = lit "这是对你消息的回复：'。...'。这是一个模拟的聊天响应。"
  /\ returned_text chat_text_of
       (run (Ollama.handle_chat sample_env (with_stream c false)))
     = Some (lit "这是对你消息的回复：'。。...'。这是一个模拟的聊天响应。").
Proof.
  cbv zeta.
  split; [vm_compute; reflexivity|].
  split; [vm_compute; reflexivity|].
  split; [vm_compute; discriminate|].
  split; vm_compute; reflexivity.
Qed.

(** ** Usage counts *)







(** ** What [json.dumps] prints *)

(** Induction on a JSON value, with the hypothesis for every element of an
    array and for every value of an object. *)
Section JsonInduction.

Variable P : json -> Prop.
Hypothesis Hnull : P JNull.
Hypothesis Hbool : forall b, P (JBool b).
Hypothesis Hint : forall z, P (JInt z).
Hypothesis Hfloat : forall f, P (JFloat f).
Hypothesis Hstr : forall s, P (JStr s).
Hypothesis Harr : forall l, Forall P l -> P (JArr l).
Hypothesis Hobj : forall kvs, Forall (fun kv => P (snd kv)) kvs -> P (JObj kvs).

Fixpoint json_induction (v : json) : P v :=
  match v with
  | JNull => Hnull
  | JBool b => Hbool b
  | JInt z => Hint z
  | JFloat f => Hfloat f
  | JStr s => Hstr s
  | JArr l =>
    @Harr l ((fix all (l : list json) : Forall P l :=
             match l with
             | [] => Forall_nil P
             | x :: r => Forall_cons x (json_induction x) (all r)
             end) l)
  | JObj kvs =>
    @Hobj kvs ((fix all (kvs : list (str * json))
             : Forall (fun kv => P (snd kv)) kvs :=
             match kvs with
             | [] => Forall_nil _
             | kv :: r =>
               Forall_cons (P := fun kv => P (snd kv)) kv
                 (json_induction (snd kv)) (all r)
             end) kvs)
  end.

End JsonInduction.

Lemma printable_lit_chars (s : str) :
  forallb (fun c => (0x20 <=? c) && (c <=? 0x7E)) s = true -> Forall printable s.
Proof.
  intros H. rewrite forallb_forall in H. apply Forall_forall. intros c Hc.
  specialize (H c Hc). apply andb_true_iff in H as [H1 H2].
  apply N.leb_le in H1, H2. split; assumption.
Qed.

Lemma uint_chars_digits (u : Decimal.uint) :
  forallb is_digit (uint_chars u) = true.
Proof. induction u; simpl; auto. Qed.

Lemma is_digit_printable (c : char) : is_digit c = true -> printable c.
Proof.
  unfold is_digit, printable. intros H. apply andb_true_iff in H as [H1 H2].
  apply N.leb_le in H1, H2. lia.
Qed.

Lemma digits_printable (s : str) : forallb is_digit s = true -> Forall printable s.
Proof.
  intros H. rewrite forallb_forall in H. apply Forall_forall. intros c Hc.
  now apply is_digit_printable, H.
Qed.

Lemma int_to_str_printable (z : Z) : Forall printable (int_to_str z).
Proof.
  destruct z as [|p|p]; simpl.
  - repeat constructor; unfold digit_char; lia.
  - apply digits_printable, uint_chars_digits.
  - constructor; [unfold printable; lia|].
    apply digits_printable, uint_chars_digits.
Qed.

Lemma hex_digit_hex (n : N) : n < 16 -> is_hex (hex_digit n) = true.
Proof.
  intros Hn. unfold hex_digit, is_hex, is_digit.
  destruct (n <? 10) eqn:H10.
  - apply N.ltb_lt in H10.
    replace (0x30 <=? 0x30 + n) with true by (symmetry; apply N.leb_le; lia).
    replace (0x30 + n <=? 0x39) with true by (symmetry; apply N.leb_le; lia).
    reflexivity.
  - apply N.ltb_ge in H10.
    replace (0x61 <=? 0x61 + (n - 10)) with true
      by (symmetry; apply N.leb_le; lia).
    replace (0x61 + (n - 10) <=? 0x66) with true
      by (symmetry; apply N.leb_le; lia).
    now rewrite !orb_true_r.
Qed.

Lemma is_hex_printable (c : char) : is_hex c = true -> printable c.
Proof.
  unfold is_hex, is_digit, printable. intros H.
  repeat (apply orb_true_iff in H as [H|H]);
    apply andb_true_iff in H as [H1 H2]; apply N.leb_le in H1, H2; lia.
Qed.

Lemma mod16_lt (n : N) : n mod 16 < 16.
Proof. apply N.mod_lt. discriminate. Qed.

(** An escape of four hexadecimal digits. *)
Lemma u_escape_shape (n : N) :
  exists h1 h2 h3 h4,
    u_escape n = [0x5C; 0x75; h1; h2; h3; h4]
    /\ is_hex h1 = true /\ is_hex h2 = true /\ is_hex h3 = true
    /\ is_hex h4 = true.
Proof.
  unfold u_escape. do 4 eexists. split; [reflexivity|].
  repeat split; apply hex_digit_hex, mod16_lt.
Qed.

Lemma u_escape_printable (n : N) : Forall printable (u_escape n).
Proof.
  destruct (u_escape_shape n) as (h1 & h2 & h3 & h4 & -> & H1 & H2 & H3 & H4).
  repeat constructor; try (unfold printable; lia); now apply is_hex_printable.
Qed.


Ltac escape_cases c :=
  unfold escape_char;
  destruct (c =? 0x22) eqn:Hquote; [|
  destruct (c =? 0x5C) eqn:Hback; [|
  destruct (c =? 0x0A) eqn:Hlf; [|
  destruct (c =? 0x0D) eqn:Hcr; [|
  destruct (c =? 0x09) eqn:Htab; [|
  destruct (c =? 0x08) eqn:Hbs; [|
  destruct (c =? 0x0C) eqn:Hff; [|
  destruct ((0x20 <=? c) && (c <=? 0x7E)) eqn:Hplain; [|
  destruct (c <? 0x10000) eqn:Hbmp]]]]]]]].

Lemma escape_char_printable (c : char) : Forall printable (escape_char c).
Proof.
  escape_cases c; try (repeat constructor; unfold printable; lia).
  - apply andb_true_iff in Hplain as [H1 H2]. apply N.leb_le in H1, H2.
    repeat constructor; assumption.
  - apply u_escape_printable.
  - apply Forall_app; split; apply u_escape_printable.
Qed.


Lemma dumps_str_printable (s : str) : Forall printable (dumps_str s).
Proof.
  unfold dumps_str. apply Forall_app; split; [repeat constructor; unfold printable; lia|].
  apply Forall_app; split; [|repeat constructor; unfold printable; lia].
  induction s as [|c s IH]; simpl; [constructor|].
  apply Forall_app; split; [apply escape_char_printable | assumption].
Qed.





Lemma join_printable (sep : str) (parts : list str) :
  Forall printable sep -> Forall (Forall printable) parts ->
  Forall printable (join sep parts).
Proof.
  intros Hsep. induction 1 as [|p parts Hp Hparts IH]; [constructor|].
  cbn [join]. destruct parts as [|q parts]; [assumption|].
  apply Forall_app; split; [assumption|].
  apply Forall_app; split; assumption.
Qed.






Section DumpsFacts.

Variable float_repr : float -> str.


(** Without floats, [json.dumps] prints printable ASCII only: no newline, no
    byte above 0x7E. *)
Lemma dumps_printable (v : json) :
  float_free v = true -> Forall printable (dumps float_repr v).
Proof.
  induction v as [|b|z|f|s|l IH|kvs IH] using json_induction; intros Hff.
  - apply printable_lit_chars; reflexivity.
  - destruct b; apply printable_lit_chars; reflexivity.
  - apply int_to_str_printable.
  - discriminate.
  - apply dumps_str_printable.
  - cbn [dumps float_free] in *.
    apply Forall_app; split; [apply printable_lit_chars; reflexivity|].
    apply Forall_app; split; [|apply printable_lit_chars; reflexivity].
    apply join_printable; [apply printable_lit_chars; reflexivity|].
    rewrite forallb_forall in Hff. rewrite Forall_forall in IH.
    apply Forall_forall. intros t Ht. apply in_map_iff in Ht as [x [<- Hx]].
    apply IH; auto.
  - cbn [dumps float_free] in *.
    apply Forall_app; split; [apply printable_lit_chars; reflexivity|].
    apply Forall_app; split; [|apply printable_lit_chars; reflexivity].
    apply join_printable; [apply printable_lit_chars; reflexivity|].
    rewrite forallb_forall in Hff. rewrite Forall_forall in IH.
    apply Forall_forall. intros t Ht. apply in_map_iff in Ht as [[k x] [<- Hx]].
    apply Forall_app; split; [apply dumps_str_printable|].
    apply Forall_app; split; [apply printable_lit_chars; reflexivity|].
    apply (IH (k, x)); [assumption | now apply (Hff (k, x))].
Qed.



End DumpsFacts.

(** Encoding ASCII text leaves its code points as they are. *)
Lemma encode_utf8_printable (s : str) : Forall printable s -> encode_utf8 s = s.
Proof.
  unfold encode_utf8. induction 1 as [|c s [_ Hc] _ IH]; [reflexivity|].
  cbn [flat_map]. rewrite IH. unfold utf8_encode_char.
  replace (c <? 0x80) with true by (symmetry; apply N.ltb_lt; lia).
  reflexivity.
Qed.

Lemma printable_no_newline (s : str) : Forall printable s -> ~ In 0x0A s.
Proof.
  intros Hs Hin. rewrite Forall_forall in Hs. specialize (Hs _ Hin).
  unfold printable in Hs. lia.
Qed.

(** ** The two framings *)













Example sentinel_bytes :
  wire sample_env SseDone
  = [100; 97; 116; 97; 58; 32; 91; 68; 79; 78; 69; 93; 10; 10].
Proof. reflexivity. Qed.

Example completions_stream_last_writes :
  let o := run (OpenAI.handle_completions sample_env
                  (BodyJson (JObj [(lit "prompt", JStr (lit "hi there"));
                                   (lit "stream", JBool true)]))) in
  List.length (written o) = 4%nat
  /\ map (fun c => firstn 6 (wire sample_env c)) (written o)
     = repeat sse_prefix 4
  /\ skipn 6 (out_trace o) = [Written SseDone; Closed].
Proof. cbv zeta. split; [|split]; vm_compute; reflexivity. Qed.

(** * More of the code *)

Import Client.

(** ** The client of the line-delimited stream *)

Section ClientFacts.

Variable E : env.
Variable L : library.

(** X1: the generator never yields an empty chunk: every value it yields is
    true as a condition, and is the [response] of a line of the body. *)
Theorem yields_are_responses (lines : list bytes) (broken : option str) :
  Forall (fun v => truthy v = true
                   /\ exists raw, In raw lines /\ response_of L raw = Some v)
    (yielded (read_lines E L lines broken)).
Proof.
  induction lines as [|raw rest IH]; cbn [read_lines].
  - destruct broken; constructor.
  - assert (Hrest : Forall (fun v => truthy v = true
                       /\ exists raw', In raw' (raw :: rest)
                                       /\ response_of L raw' = Some v)
                      (yielded (read_lines E L rest broken))).
    { eapply Forall_impl; [|exact IH]. intros v [Hv [raw' [Hin Hr]]].
      split; [assumption|]. exists raw'. split; [now right | assumption]. }
    destruct (strip_bytes raw) as [|c line] eqn:Hstrip; [exact Hrest|].
    destruct (json_loads L (c :: line)) as [data|msg|msg] eqn:Hloads;
      [|exact Hrest|constructor].
    destruct data as [| | | | | |data]; try constructor.
    destruct (truthy (dict_get data (lit "done") (JBool false))).
    + destruct (dict_lookup data (lit "total_duration")) as [total|];
        [destruct (seconds_text L total)|]; constructor.
    + destruct (truthy (dict_get data (lit "response") (JStr []))) eqn:Ht;
        [|exact Hrest].
      cbn [yielded]. constructor; [|exact Hrest].
      split; [exact Ht|]. exists raw. split; [now left|].
      unfold response_of. rewrite Hstrip, Hloads.
      unfold dict_get in *.
      destruct (dict_lookup data (lit "response")); [reflexivity | discriminate].
Qed.

(** X2: blank lines and lines that are not JSON change nothing of what is
    yielded. *)
Theorem noise_is_skipped (lines : list bytes) (broken : option str) :
  yielded (read_lines E L lines broken)
  = yielded (read_lines E L (filter (fun raw => negb (is_noise L raw)) lines)
               broken).
Proof.
  induction lines as [|raw rest IH]; [reflexivity|].
  cbn [filter]. unfold is_noise at 1. cbn [read_lines].
  destruct (strip_bytes raw) as [|c line] eqn:Hstrip; [exact IH|].
  destruct (json_loads L (c :: line)) as [data|msg|msg] eqn:Hloads;
    cbn [negb read_lines]; rewrite ?Hstrip, ?Hloads; try reflexivity.
  - destruct data as [| | | | | |data]; try reflexivity.
    destruct (truthy (dict_get data (lit "done") (JBool false))); [reflexivity|].
    destruct (truthy (dict_get data (lit "response") (JStr [])));
      cbn [yielded]; now rewrite IH.
  - exact IH.
Qed.

(** X3: the first line that is done ends the session: whatever follows it in
    the body, and a connection that breaks later, change nothing. *)
Theorem done_line_ends_session (before after : list bytes) (raw : bytes)
    (broken : option str) (Hdone : is_done_line L raw = true) :
  read_lines E L (before ++ raw :: after) broken
  = read_lines E L (before ++ [raw]) None.
Proof.
  assert (Hhere : forall rest b,
            read_lines E L (raw :: rest) b = read_lines E L [raw] None).
  { intros rest b. unfold is_done_line in Hdone. cbn [read_lines].
    destruct (strip_bytes raw) as [|c line]; [discriminate|].
    destruct (json_loads L (c :: line)) as [data|msg|msg]; try discriminate.
    destruct data as [| | | | | |data]; try discriminate.
    now rewrite Hdone. }
  induction before as [|x before IH]; [apply Hhere|].
  cbn [app read_lines]. rewrite IH. reflexivity.
Qed.

End ClientFacts.

Lemma done_line_ends_session_witness :
  read_lines sample_env sample_library
    ([lit "hi"; lit " "] ++ lit "true" :: [lit "hi"; lit "hi"]) (Some (lit "reset"))
  = read_lines sample_env sample_library ([lit "hi"; lit " "] ++ [lit "true"]) None.
Proof.
  apply (@done_line_ends_session sample_env sample_library
           [lit "hi"; lit " "] [lit "hi"; lit "hi"] (lit "true") (Some (lit "reset"))).
  reflexivity.
Defined.

Example client_session :
  yielded (stream_ollama sample_env sample_library
             (Reply 200 []
                [lit "hi"; [0x0A]; lit "oops"; lit "hi"; lit "true"; lit "hi"] None))
  = [JStr (lit "hi "); JStr (lit "hi ")].
Proof. vm_compute. reflexivity. Qed.

(** ** The client reading what the server streams *)

Lemma lines_from_text (cur text rest : bytes) :
  ~ In 0x0A text ->
  lines_from cur (text ++ 0x0A :: rest)
  = (cur ++ text ++ [0x0A]) :: lines_from [] rest.
Proof.
  revert cur; induction text as [|c text IH]; intros cur Hno; cbn [app lines_from].
  - reflexivity.
  - destruct (c =? 0x0A) eqn:Hc.
    + apply N.eqb_eq in Hc. exfalso. apply Hno. now left.
    + rewrite IH by (intros Hin; apply Hno; now right).
      now rewrite <- app_assoc.
Qed.

(** Texts without a newline, each followed by one, are read back as that
    many lines. *)
Lemma lines_of_texts (texts : list bytes) :
  Forall (fun t => ~ In 0x0A t) texts ->
  lines_of (List.concat (map (fun t => t ++ [0x0A]) texts))
  = map (fun t => t ++ [0x0A]) texts.
Proof.
  unfold lines_of. induction 1 as [|t texts Ht _ IH]; [reflexivity|].
  cbn [map List.concat]. rewrite <- app_assoc. cbn [app].
  rewrite lines_from_text by assumption. now rewrite IH.
Qed.

Lemma lstrip_bytes_keep (c : N) (r : bytes) :
  is_ascii_space c = false -> lstrip_bytes (c :: r) = c :: r.
Proof. intros Hc. cbn [lstrip_bytes]. now rewrite Hc. Qed.

(** Stripping a line of the server leaves the text of its object. *)
Lemma strip_bytes_object (body : bytes) :
  strip_bytes (([0x7B] ++ body ++ [0x7D]) ++ [0x0A]) = [0x7B] ++ body ++ [0x7D].
Proof.
  unfold strip_bytes. cbn [app]. rewrite lstrip_bytes_keep by reflexivity.
  change (0x7B :: (body ++ [0x7D]) ++ [0x0A])
    with ((0x7B :: body ++ [0x7D]) ++ [0x0A]).
  rewrite rev_app_distr. cbn [rev app lstrip_bytes is_ascii_space].
  change (0x7B :: body ++ [0x7D]) with ((0x7B :: body) ++ [0x7D]).
  rewrite rev_app_distr. cbn [rev app].
  change (is_ascii_space 0x0A) with true. cbn iota.
  rewrite lstrip_bytes_keep by reflexivity.
  change (0x7D :: rev body ++ [0x7B]) with ([0x7D] ++ rev body ++ [0x7B]).
  rewrite !rev_app_distr, rev_involutive. reflexivity.
Qed.

Lemma wire_line_text (E : env) (kvs : list (str * json)) :
  float_free (JObj kvs) = true ->
  wire E (JsonLine (JObj kvs)) = dumps (float_repr E) (JObj kvs) ++ [0x0A]
  /\ encode_utf8 (dumps (float_repr E) (JObj kvs)) = dumps (float_repr E) (JObj kvs)
  /\ ~ In 0x0A (dumps (float_repr E) (JObj kvs)).
Proof.
  intros Hff. pose proof (dumps_printable (float_repr E) _ Hff) as Hprint.
  unfold wire. rewrite encode_utf8_printable by assumption.
  split; [reflexivity|]. split; [reflexivity | now apply printable_no_newline].
Qed.

Lemma body_lines (E : env) (o : outcome) (js : list json) :
  written o = map JsonLine js ->
  Forall (fun j => (exists kvs, j = JObj kvs) /\ float_free j = true) js ->
  lines_of (body_of E o) = map (fun j => wire E (JsonLine j)) js.
Proof.
  intros Hw Hjs. unfold body_of. rewrite Hw, map_map.
  assert (Heq : map (fun j => wire E (JsonLine j)) js
                = map (fun t => t ++ [0x0A]) (map (dumps (float_repr E)) js)).
  { rewrite map_map. apply map_ext_in. intros j Hj.
    rewrite Forall_forall in Hjs. destruct (Hjs j Hj) as [[kvs ->] Hff].
    now apply wire_line_text. }
  rewrite Heq. apply lines_of_texts.
  apply Forall_forall. intros t Ht. apply in_map_iff in Ht as [j [<- Hj]].
  rewrite Forall_forall in Hjs. destruct (Hjs j Hj) as [[kvs ->] Hff].
  now apply wire_line_text.
Qed.

Lemma read_lines_payloads (E : env) (L : library) (js : list json)
    (broken : option str) :
  Forall (readable E L) js ->
  yielded (read_lines E L (map (fun j => wire E (JsonLine j)) js) broken)
  = yields_of js.
Proof.
  induction 1 as [|j js [[kvs ->] [Hff Hdec]] _ IH].
  - cbn. now destruct broken.
  - cbn [map read_lines yields_of].
    destruct (wire_line_text E kvs Hff) as (Hwire & Henc & _).
    assert (Hstrip : strip_bytes (dumps (float_repr E) (JObj kvs) ++ [0x0A])
                     = dumps (float_repr E) (JObj kvs))
      by (cbn [dumps]; apply strip_bytes_object).
    unfold decodes in Hdec. rewrite Henc in Hdec. rewrite Hwire, Hstrip.
    remember (dumps (float_repr E) (JObj kvs)) as text eqn:Htext.
    destruct text as [|c text]; [cbn [dumps app] in Htext; discriminate|].
    rewrite Hdec.
    destruct (truthy (dict_get kvs (lit "done") (JBool false))).
    + destruct (dict_lookup kvs (lit "total_duration")) as [total|];
        [destruct (seconds_text L total)|]; reflexivity.
    + destruct (truthy (dict_get kvs (lit "response") (JStr [])));
        cbn [yielded]; now rewrite IH.
Qed.


Lemma yields_of_chat (E : env) (model : json) (sentences : list str) (c : nat)
    (final : json) :
  is_done final = true -> (exists kvs, final = JObj kvs) ->
  yields_of (chat_lines E model sentences c ++ [final]) = [].
Proof.
  intros Hfinal [kvs ->]. revert c.
  induction sentences as [|x sentences IH]; intros c.
  - cbn [chat_lines app yields_of]. unfold is_done, field in Hfinal.
    unfold dict_get. destruct (dict_lookup kvs (lit "done")) as [[]|];
      try discriminate. cbn [truthy]. now rewrite Hfinal.
  - cbn [chat_lines]. destruct (str_truthy (strip x)); [|apply IH].
    cbn [app]. unfold Ollama.chat_delta at 1. cbn [yields_of].
    change (dict_get _ (lit "done") (JBool false)) with (JBool false).
    change (dict_get _ (lit "response") (JStr [])) with (JStr []).
    cbn [truthy str_truthy]. apply IH.
Qed.


Lemma chat_lines_objects (E : env) (model : json) (sentences : list str) (c : nat) :
  float_free model = true ->
  Forall (fun j => (exists kvs, j = JObj kvs) /\ float_free j = true)
    (chat_lines E model sentences c).
Proof.
  intros Hm. revert c; induction sentences as [|x sentences IH]; intros c; simpl;
    [constructor|].
  destruct (str_truthy (strip x)); [constructor|]; try apply IH.
  split; [now eexists|]. unfold Ollama.chat_delta, Ollama.chat_message.
  cbn [float_free forallb snd]. now rewrite Hm.
Qed.

Lemma readable_all (E : env) (L : library) (js : list json) :
  Forall (fun j => (exists kvs, j = JObj kvs) /\ float_free j = true) js ->
  Forall (decodes E L) js -> Forall (readable E L) js.
Proof.
  intros Hobj Hdec. rewrite Forall_forall in *. intros j Hj.
  destruct (Hobj j Hj) as [Hk Hff]. repeat split; auto.
Qed.

(** Every payload of a closed stream is decoded by the library given. *)
Ltac all_decoded :=
  match goal with
  | |- Forall _ ?ps =>
    let v := eval vm_compute in ps in
    replace ps with v by (vm_compute; reflexivity)
  end;
  repeat (apply Forall_cons; [vm_compute; reflexivity|]); apply Forall_nil.



(** X5: the same client yields nothing from the stream of /api/chat, whose
    lines carry their text under [message] and have no [response]: it reads
    to the line that is done and stops. *)
Theorem client_reads_nothing_from_chat (E : env) (L : library) (d : dict) (s : str)
    (Hstream : truthy (dict_get d (lit "stream") (JBool false)) = true)
    (Hsource : last_message_of (dict_get d (lit "messages") (JArr []))
               = inr (JStr s))
    (Hmodel : float_free (dict_get d (lit "model") (JStr (lit "llama2:latest")))
              = true)
    (Hdecodes :
       Forall (decodes E L)
         (payloads (run (Ollama.handle_chat E (BodyJson (JObj d)))))) :
  yielded
    (stream_ollama E L
       (Reply 200 []
          (lines_of (body_of E (run (Ollama.handle_chat E (BodyJson (JObj d))))))
          None))
  = [].
Proof.
  pose proof (chat_stream_written E d Hstream Hsource) as Hw. cbv zeta in Hw.
  pose proof Hw as Hp. rewrite <- (app_nil_r (map JsonLine _)) in Hp.
  apply payloads_written in Hp. cbn [filter_map] in Hp. rewrite app_nil_r in Hp.
  rewrite Hp in Hdecodes.
  match type of Hp with _ = ?lines ++ [?final] =>
    assert (Hobj : Forall (fun j => (exists kvs, j = JObj kvs)
                                    /\ float_free j = true) (lines ++ [final]))
  end.
  { apply Forall_app. split; [now apply chat_lines_objects|].
    constructor; [|constructor]. split; [now eexists|].
    unfold Ollama.chat_done, Ollama.chat_message.
    cbn [float_free forallb snd]. now rewrite Hmodel. }
  cbn [stream_ollama Z.eqb Pos.eqb].
  rewrite (@body_lines E _ _ Hw Hobj).
  rewrite (@read_lines_payloads E L _ None (@readable_all E L _ Hobj Hdecodes)).
  apply yields_of_chat; [reflexivity | now eexists].
Qed.

Lemma client_reads_nothing_from_chat_witness :
  let d := [(lit "model", JStr (lit "llama2"));
            (lit "messages",
              JArr [JObj [(lit "role", JStr (lit "user"));
                          (lit "content", JStr (lit "你好"))]]);
            (lit "stream", JBool true)] in
  let o := run (Ollama.handle_chat sample_env (BodyJson (JObj d))) in
  yielded
    (stream_ollama sample_env (table_library sample_env (payloads o))
       (Reply 200 [] (lines_of (body_of sample_env o)) None))
  = [].
Proof.
  cbv zeta.
  apply (@client_reads_nothing_from_chat sample_env _ _ (lit "你好"));
    try reflexivity.
  all_decoded.
Defined.

(** ** Embeddings *)

(** X6: /api/embed answers 200 exactly when the input is a string, with one
    embedding seeded by the hash of the input and the number of its words;
    every other input (null, a number, a boolean, a list, a dictionary) ends
    in the 500 error response: the branches written for lists are never
    reached. *)
Theorem embed_needs_a_string (E : env) (d : dict) :
  let input := dict_get d (lit "input") (JStr []) in
  let o := run (Ollama.handle_embed E (BodyJson (JObj d))) in
  match input with
  | JStr s =>
    exists j,
      o = Outcome [] (inr (JsonResponse 200 j))
      /\ field "embeddings" j
         = Some (JArr [JArr (map JFloat
                               (gauss_draws E (hash_value E (JStr s) mod 10000)%Z
                                  4096))])
      /\ field "prompt_eval_count" j = Some (of_nat (List.length (split_ws s)))
  | _ =>
    exists e, o = Outcome [] (inr (JsonResponse 500
                                     (JObj [(lit "error", JStr (exn_str e))])))
  end.
Proof.
  cbv zeta. unfold run, Ollama.handle_embed, try_except. py_run.
  destruct (dict_get d (lit "input") (JStr [])) as [|b|z|f|s|l|kvs];
    try (eexists; reflexivity).
  eexists. split; [reflexivity|]. split; reflexivity.
Qed.

Lemma embed_each_strings (E : env) (ts : list str) :
  OpenAI.embed_each E (map JStr ts)
  = inr (map (fun t => JArr (map JFloat
                               (gauss_draws E (hash_value E (JStr t) mod 10000)%Z
                                  1536))) ts).
Proof.
  induction ts as [|t ts IH]; [reflexivity|].
  cbn [map OpenAI.embed_each py_hash]. now rewrite IH.
Qed.

Lemma sum_split_lengths_strings (ts : list str) :
  sum_split_lengths (map JStr ts)
  = inr (list_sum (map (fun t => List.length (split_ws t)) ts)).
Proof.
  induction ts as [|t ts IH]; [reflexivity|].
  cbn [map sum_split_lengths py_split]. now rewrite IH.
Qed.

Lemma embedding_items_nth (i0 : nat) (es : list json) (i : nat) (e : json) :
  nth_error es i = Some e ->
  nth_error (OpenAI.embedding_items i0 es) i
  = Some (JObj [(lit "object", JStr (lit "embedding"));
                (lit "embedding", e);
                (lit "index", of_nat (i0 + i))]).
Proof.
  revert i0 i; induction es as [|x es IH]; intros i0 [|i]; cbn; try discriminate.
  - intros [= ->]. now rewrite Nat.add_0_r.
  - intros H. rewrite (IH (S i0) i H). now rewrite Nat.add_succ_r.
Qed.

Lemma embedding_items_length (i0 : nat) (es : list json) :
  List.length (OpenAI.embedding_items i0 es) = List.length es.
Proof. revert i0; induction es as [|x es IH]; intros i0; cbn; auto. Qed.

(** X7: /v1/embeddings answers a list of strings with one item per string,
    in order: the item at position i has index i and the embedding seeded by
    the hash of the i-th string, so equal strings get equal embeddings; the
    two usage counts are the total number of words. *)
Theorem embeddings_of_strings (E : env) (d : dict) (ts : list str)
    (Hinput : dict_get d (lit "input") (JStr []) = JArr (map JStr ts)) :
  exists j items,
    run (OpenAI.handle_embeddings E (BodyJson (JObj d)))
    = Outcome [] (inr (JsonResponse 200 j))
    /\ field "data" j = Some (JArr items)
    /\ List.length items = List.length ts
    /\ (forall i t, nth_error ts i = Some t ->
        nth_error items i
        = Some (JObj [(lit "object", JStr (lit "embedding"));
                      (lit "embedding",
                        JArr (map JFloat
                                (gauss_draws E
                                   (hash_value E (JStr t) mod 10000)%Z 1536)));
                      (lit "index", of_nat i)]))
    /\ at_path ["usage"%string; "prompt_tokens"%string] j
       = Some (of_nat (list_sum (map (fun t => List.length (split_ws t)) ts)))
    /\ at_path ["usage"%string; "total_tokens"%string] j
       = Some (of_nat (list_sum (map (fun t => List.length (split_ws t)) ts))).
Proof.
  unfold run, OpenAI.handle_embeddings, try_except. py_run.
  rewrite Hinput. cbn [is_str py_iter]. rewrite bind_lift_ok.
  rewrite embed_each_strings, bind_lift_ok.
  rewrite !sum_split_lengths_strings, !bind_lift_ok. unfold ret.
  do 2 eexists. split; [reflexivity|]. split; [reflexivity|].
  split; [now rewrite embedding_items_length, length_map|].
  split; [|split; reflexivity].
  intros i t Hi. apply embedding_items_nth. rewrite nth_error_map, Hi.
  reflexivity.
Qed.

Lemma embeddings_of_strings_witness :
  exists j items,
    run (OpenAI.handle_embeddings sample_env
           (BodyJson (JObj [(lit "input",
                              JArr (map JStr [lit "a b"; lit "c"; lit "a b"]))])))
    = Outcome [] (inr (JsonResponse 200 j))
    /\ field "data" j = Some (JArr items)
    /\ List.length items = 3%nat
    /\ at_path ["usage"%string; "total_tokens"%string] j = Some (JInt 5).
Proof.
  destruct (@embeddings_of_strings sample_env
              [(lit "input", JArr (map JStr [lit "a b"; lit "c"; lit "a b"]))]
              [lit "a b"; lit "c"; lit "a b"] eq_refl)
    as (j & items & Hrun & Hdata & Hlen & _ & _ & Htotal).
  exists j, items. repeat split; assumption.
Defined.

(** X8: on /v1/embeddings a bare string is the list that holds it: the two
    requests get the same answer. *)
Theorem embeddings_string_is_singleton (E : env) (d1 d2 : dict) (s : str)
    (Hstring : dict_get d1 (lit "input") (JStr []) = JStr s)
    (Hlist : dict_get d2 (lit "input") (JStr []) = JArr [JStr s])
    (Hmodel : dict_get d1 (lit "model") (JStr (lit "text-embedding-ada-002"))
              = dict_get d2 (lit "model") (JStr (lit "text-embedding-ada-002"))) :
  run (OpenAI.handle_embeddings E (BodyJson (JObj d1)))
  = run (OpenAI.handle_embeddings E (BodyJson (JObj d2))).
Proof.
  unfold run, OpenAI.handle_embeddings, try_except. py_run.
  now rewrite Hstring, Hlist, Hmodel.
Qed.

Lemma embeddings_string_is_singleton_witness :
  run (OpenAI.handle_embeddings sample_env
         (BodyJson (JObj [(lit "input", JStr (lit "hello world"))])))
  = run (OpenAI.handle_embeddings sample_env
           (BodyJson (JObj [(lit "input", JArr [JStr (lit "hello world")])]))).
Proof.
  apply (@embeddings_string_is_singleton sample_env _ _ (lit "hello world"));
    reflexivity.
Defined.

Lemma sum_split_lengths_fails (l : list json) :
  existsb (fun x => negb (is_str x)) l = true ->
  exists e, sum_split_lengths l = inl e.
Proof.
  induction l as [|x l IH]; [discriminate|]. cbn [existsb sum_split_lengths].
  destruct x as [|b|z|f|s|l'|kvs]; try (intros _; eexists; reflexivity).
  cbn [is_str negb orb py_split]. intros H. destruct (IH H) as [e ->].
  now exists e.
Qed.

(** X9: /v1/embeddings answers the 500 error response of its surface when
    the input is not iterable (null, a number, a boolean), and when it is a
    list that holds anything but strings. *)
Theorem embeddings_need_strings (E : env) (d : dict)
    (Hbad : match dict_get d (lit "input") (JStr []) with
            | JNull | JBool _ | JInt _ | JFloat _ => True
            | JArr l => existsb (fun x => negb (is_str x)) l = true
            | _ => False
            end) :
  exists e,
    run (OpenAI.handle_embeddings E (BodyJson (JObj d)))
    = Outcome []
        (inr (JsonResponse 500
                (JObj [(lit "error",
                         JObj [(lit "message", JStr (exn_str e));
                               (lit "type", JStr (lit "server_error"))])]))).
Proof.
  unfold run, OpenAI.handle_embeddings, try_except. py_run.
  destruct (dict_get d (lit "input") (JStr [])) as [|b|z|f|s|l|kvs];
    try contradiction; try (eexists; reflexivity).
  cbn [is_str py_iter]. rewrite bind_lift_ok.
  destruct (OpenAI.embed_each E l) as [e|es]; [eexists; reflexivity|].
  rewrite bind_lift_ok. destruct (sum_split_lengths_fails l Hbad) as [e ->].
  eexists; reflexivity.
Qed.

Lemma embeddings_need_strings_witness :
  exists e,
    run (OpenAI.handle_embeddings sample_env
           (BodyJson (JObj [(lit "input", JArr [JStr (lit "a"); JInt 7])])))
    = Outcome []
        (inr (JsonResponse 500
                (JObj [(lit "error",
                         JObj [(lit "message", JStr (exn_str e));
                               (lit "type", JStr (lit "server_error"))])]))).
Proof.
  apply (@embeddings_need_strings sample_env
           [(lit "input", JArr [JStr (lit "a"); JInt 7])]).
  reflexivity.
Defined.

(** ** The progress streams of /api/pull and /api/create *)


(** ** Errors before and after the stream is prepared *)

Lemma select_user_fails (ms : list json) (m : json) (e0 : exn) :
  In m ms -> py_getitem m (lit "role") = inl e0 ->
  exists e, select_user ms = inl e.
Proof.
  intros Hin Hrole. induction ms as [|x ms IH]; [contradiction|].
  cbn [select_user]. destruct Hin as [->|Hin].
  - rewrite Hrole. now exists e0.
  - destruct (py_getitem x (lit "role")) as [e|role]; [now exists e|].
    destruct (IH Hin) as [e ->]. now exists e.
Qed.

(** X11: a message without a role (or a message that is no dictionary) makes
    both chat handlers answer 500 before anything is sent, whether or not
    the request asks for a stream: nothing is prepared and nothing written. *)
Theorem bad_message_fails_before_stream (E : env) (d : dict) (ms : list json)
    (m : json) (e0 : exn)
    (Hmessages : dict_get d (lit "messages") (JArr []) = JArr ms)
    (Hin : In m ms)
    (Hrole : py_getitem m (lit "role") = inl e0) :
  exists e,
    run (Ollama.handle_chat E (BodyJson (JObj d)))
    = Outcome [] (inr (JsonResponse 500 (JObj [(lit "error", JStr (exn_str e))])))
    /\ run (OpenAI.handle_chat_completions E (BodyJson (JObj d)))
       = Outcome []
           (inr (JsonResponse 500
                   (JObj [(lit "error",
                            JObj [(lit "message", JStr (exn_str e));
                                  (lit "type", JStr (lit "server_error"))])]))).
Proof.
  destruct (@select_user_fails ms m e0 Hin Hrole) as [e He]. exists e.
  assert (Hlast : last_message_of (dict_get d (lit "messages") (JArr [])) = inl e)
    by (rewrite Hmessages; unfold last_message_of; cbn [py_iter]; now rewrite He).
  split.
  - unfold run, Ollama.handle_chat, try_except. py_run.
    rewrite Hlast, bind_lift_raise. reflexivity.
  - unfold run, OpenAI.handle_chat_completions, try_except. py_run.
    rewrite Hlast, bind_lift_raise. reflexivity.
Qed.

Lemma bad_message_fails_before_stream_witness :
  exists e,
    run (Ollama.handle_chat sample_env
           (BodyJson (JObj [(lit "messages",
                              JArr [JObj [(lit "role", JStr (lit "user"));
                                          (lit "content", JStr (lit "hi"))];
                                    JObj [(lit "content", JStr (lit "no role"))]]);
                            (lit "stream", JBool true)])))
    = Outcome [] (inr (JsonResponse 500 (JObj [(lit "error", JStr (exn_str e))]))).
Proof.
  destruct (@bad_message_fails_before_stream sample_env
              [(lit "messages",
                 JArr [JObj [(lit "role", JStr (lit "user"));
                             (lit "content", JStr (lit "hi"))];
                       JObj [(lit "content", JStr (lit "no role"))]]);
               (lit "stream", JBool true)]
              _ (JObj [(lit "content", JStr (lit "no role"))])
              (Exn KeyError (lit "'role'")) eq_refl
              (or_intror (or_introl eq_refl)) eq_refl) as [e [He _]].
  now exists e.
Defined.

(** X12: a prompt that is not a string, on a request that asks for a
    stream, fails after the response is prepared: the two prompt handlers
    have sent status 200 and the stream headers, write nothing, never close
    the stream, and return the 500 error response of their surface. *)
Theorem bad_prompt_fails_after_prepare (E : env) (d : dict)
    (Hstream : truthy (dict_get d (lit "stream") (JBool false)) = true)
    (Hprompt : is_str (dict_get d (lit "prompt") (JStr [])) = false) :
  let e := no_attribute (dict_get d (lit "prompt") (JStr [])) (lit "split") in
  run (Ollama.handle_generate E (BodyJson (JObj d)))
  = Outcome [Prepared 200 (lit "OK") stream_headers]
      (inr (JsonResponse 500 (JObj [(lit "error", JStr (exn_str e))])))
  /\ run (OpenAI.handle_completions E (BodyJson (JObj d)))
     = Outcome [Prepared 200 (lit "OK") stream_headers]
         (inr (JsonResponse 500
                 (JObj [(lit "error",
                          JObj [(lit "message", JStr (exn_str e));
                                (lit "type", JStr (lit "server_error"))])]))).
Proof.
  cbv zeta. split.
  - unfold run, Ollama.handle_generate, try_except. py_run. rewrite Hstream.
    py_run. destruct (dict_get d (lit "prompt") (JStr [])); try discriminate;
      reflexivity.
  - unfold run, OpenAI.handle_completions, try_except. py_run. rewrite Hstream.
    py_run. destruct (dict_get d (lit "prompt") (JStr [])); try discriminate;
      reflexivity.
Qed.

Lemma bad_prompt_fails_after_prepare_witness :
  out_trace (run (Ollama.handle_generate sample_env
                    (BodyJson (JObj [(lit "prompt", JInt 42);
                                     (lit "stream", JBool true)]))))
  = [Prepared 200 (lit "OK") stream_headers].
Proof.
  rewrite (proj1 (@bad_prompt_fails_after_prepare sample_env
                    [(lit "prompt", JInt 42); (lit "stream", JBool true)]
                    eq_refl eq_refl)).
  reflexivity.
Defined.

(** ** How a request ends *)

Lemma generate_events_io (E : env) (model : json) (words : list str) (c : nat) :
  forallb is_io (generate_events E model words c) = true.
Proof. revert c; induction words as [|w words IH]; intros c; cbn; auto. Qed.

Lemma chat_events_io (E : env) (model : json) (sentences : list str) (c : nat) :
  forallb is_io (chat_events E model sentences c) = true.
Proof.
  revert c; induction sentences as [|x sentences IH]; intros c; cbn; auto.
  destruct (str_truthy (strip x)); cbn; auto.
Qed.

Lemma chat_completion_events_io (E : env) (id : str) (model : json)
    (sentences : list str) :
  forallb is_io (chat_completion_events E id model sentences) = true.
Proof.
  induction sentences as [|x sentences IH]; cbn; auto.
  destruct (str_truthy (strip x)); cbn; auto.
Qed.

Lemma completion_events_io (E : env) (id : str) (model : json) (words : list str) :
  forallb is_io (completion_events E id model words) = true.
Proof. induction words as [|w words IH]; cbn; auto. Qed.

Ltac error_shape :=
  first [ eexists; reflexivity | do 2 eexists; reflexivity ].

(** The request fails with nothing sent. *)
Ltac fails_unsent :=
  right; right; eexists; split; [reflexivity|]; split; [error_shape|];
  left; reflexivity.

(** The request fails with the stream prepared and nothing written. *)
Ltac fails_prepared :=
  right; right; eexists; split; [reflexivity|]; split; [error_shape|];
  right; exists []; split; reflexivity.

Ltac completes middle :=
  split; [reflexivity|]; exists middle; split;
  [cbn [out_trace app]; rewrite <- ?app_assoc; reflexivity
  |rewrite ?forallb_app;
   rewrite ?generate_events_io, ?chat_events_io, ?chat_completion_events_io,
     ?completion_events_io; reflexivity].

Ltac streams middle := left; completes middle.

Ltac answers := right; left; eexists; split; reflexivity.

Section Settled.

Variable E : env.

Lemma generate_settled (request : request_body) :
  settled legacy_error (run (Ollama.handle_generate E request)).
Proof.
  destruct request as [e|v]; [fails_unsent|].
  destruct v as [|b|z|f|s|l|d]; try fails_unsent.
  destruct (truthy (dict_get d (lit "stream") (JBool false))) eqn:Hs;
    destruct (dict_get d (lit "prompt") (JStr [])) as [|b|z|f|p|l|kvs] eqn:Hp;
    try (rewrite (generate_stream_run E d Hs Hp);
         streams (generate_events E
                    (dict_get d (lit "model") (JStr (lit "llama2:latest")))
                    (split_ws p) 0
                  ++ [Written (JsonLine
                        (Ollama.generate_done
                           (dict_get d (lit "model") (JStr (lit "llama2:latest")))
                           (now_isoformat E (List.length (split_ws p))) []
                           (of_nat (List.length (split_ws p)))
                           (of_nat (List.length (split_ws p)))))]));
    try (rewrite (generate_once_run E d Hs Hp); answers);
    unfold run, Ollama.handle_generate, try_except; py_run; rewrite Hs, Hp;
    first [fails_prepared | fails_unsent].
Qed.

Lemma completions_settled (request : request_body) :
  settled openai_error (run (OpenAI.handle_completions E request)).
Proof.
  destruct request as [e|v]; [fails_unsent|].
  destruct v as [|b|z|f|s|l|d]; try fails_unsent.
  destruct (truthy (dict_get d (lit "stream") (JBool false))) eqn:Hs;
    destruct (dict_get d (lit "prompt") (JStr [])) as [|b|z|f|p|l|kvs] eqn:Hp;
    try (rewrite (completions_stream_run E d Hs Hp);
         streams (completion_events E (lit "cmpl-" ++ uuid4_hex E)
                    (dict_get d (lit "model") (JStr (lit "text-davinci-003")))
                    (split_ws p)
                  ++ [Written (SseData
                        (OpenAI.text_chunk E (lit "cmpl-" ++ uuid4_hex E)
                           (dict_get d (lit "model") (JStr (lit "text-davinci-003")))
                           [] (JStr (lit "stop"))));
                      Written SseDone]));
    try (rewrite (completions_once_run E d Hs Hp); answers);
    unfold run, OpenAI.handle_completions, try_except; py_run; rewrite Hs, Hp;
    first [fails_prepared | fails_unsent].
Qed.

Lemma chat_settled (request : request_body) :
  settled legacy_error (run (Ollama.handle_chat E request)).
Proof.
  destruct request as [e|v]; [fails_unsent|].
  destruct v as [|b|z|f|s|l|d]; try fails_unsent.
  destruct (last_message_of (dict_get d (lit "messages") (JArr [])))
    as [e|last_message] eqn:Hm.
  { unfold run, Ollama.handle_chat, try_except; py_run; rewrite Hm.
    fails_unsent. }
  set (model := dict_get d (lit "model") (JStr (lit "llama2:latest"))).
  destruct (truthy (dict_get d (lit "stream") (JBool false))) eqn:Hs;
    destruct last_message as [|b|z|f|s|l|kvs];
    try (rewrite (chat_once_run E d Hs Hm); answers);
    try (unfold run, Ollama.handle_chat, try_except; py_run; rewrite Hm, Hs;
         py_run; first [fails_prepared | fails_unsent]).
  - rewrite (chat_stream_run E d Hs Hm).
    streams (chat_events E model
               (split_on full_stop (Ollama.chat_text E (JStr (slice_to 50 s)))) 0
             ++ [Written (JsonLine
                   (Ollama.chat_done model
                      (now_isoformat E
                         (List.length
                            (spoken (split_on full_stop
                               (Ollama.chat_text E (JStr (slice_to 50 s)))))))
                      []
                      (of_nat (List.length (split_ws s)))
                      (of_nat (List.length
                         (split_ws (Ollama.chat_text E (JStr (slice_to 50 s))))))))]).
  - (* a list slices and is written out; [split] then fails *)
    unfold run, Ollama.handle_chat, try_except; py_run; rewrite Hm, Hs; py_run.
    cbn [py_slice_50]; py_run.
    erewrite bind_done; [|apply for_each_chat]. py_run.
    right; right; eexists; split; [reflexivity|]; split; [error_shape|].
    right. eexists; split; [cbn [out_trace app]; reflexivity|].
    apply chat_events_io.
Qed.

Lemma chat_completions_settled (request : request_body) :
  settled openai_error (run (OpenAI.handle_chat_completions E request)).
Proof.
  destruct request as [e|v]; [fails_unsent|].
  destruct v as [|b|z|f|s|l|d]; try fails_unsent.
  destruct (last_message_of (dict_get d (lit "messages") (JArr [])))
    as [e|last_message] eqn:Hm.
  { unfold run, OpenAI.handle_chat_completions, try_except; py_run; rewrite Hm.
    fails_unsent. }
  set (model := dict_get d (lit "model") (JStr (lit "gpt-3.5-turbo"))).
  set (id := lit "chatcmpl-" ++ uuid4_hex E).
  destruct (truthy (dict_get d (lit "stream") (JBool false))) eqn:Hs;
    destruct last_message as [|b|z|f|s|l|kvs];
    try (rewrite (chat_completions_once_run E d Hs Hm); answers);
    try (unfold run, OpenAI.handle_chat_completions, try_except; py_run;
         rewrite Hm, Hs; py_run; first [fails_prepared | fails_unsent]).
  - rewrite (chat_completions_stream_run E d Hs Hm).
    streams (chat_completion_events E id model
               (split_on full_stop (OpenAI.chat_text E (JStr (slice_to 50 s))))
             ++ [Written (SseData
                   (OpenAI.chat_chunk E id model (JObj []) (JStr (lit "stop"))));
                 Written SseDone]).
  - (* a list slices and is written out; nothing splits it on this path *)
    unfold run, OpenAI.handle_chat_completions, try_except; py_run;
      rewrite Hm, Hs; py_run.
    cbn [py_slice_50]; py_run.
    erewrite bind_done; [|apply for_each_chat_completion]. py_run.
    streams (chat_completion_events E id model
               (split_on full_stop (OpenAI.chat_text E (JArr (firstn 50 l))))
             ++ [Written (SseData
                   (OpenAI.chat_chunk E id model (JObj []) (JStr (lit "stop"))));
                 Written SseDone]).
Qed.

End Settled.

(** X13: whatever the body of the request, each of the four generation
    handlers ends in one of three ways: a stream that is prepared once,
    carries only writes and pauses, and is closed once, last; a JSON answer
    with status 200 with nothing sent before it; or the 500 error response
    of its surface, with nothing sent or with the stream prepared and left
    open.  No exception leaves a handler, and nothing is written before the
    stream is prepared or after it is closed. *)
Theorem every_request_settles (E : env) (request : request_body) :
  settled legacy_error (run (Ollama.handle_generate E request))
  /\ settled legacy_error (run (Ollama.handle_chat E request))
  /\ settled openai_error (run (OpenAI.handle_completions E request))
  /\ settled openai_error (run (OpenAI.handle_chat_completions E request)).
Proof.
  split; [apply generate_settled|].
  split; [apply chat_settled|].
  split; [apply completions_settled | apply chat_completions_settled].
Qed.

(** ** A last message whose content is a list *)

Lemma split_on_from_head (sep : char) (cur s : str) :
  exists x rest, split_on_from sep cur s = (cur ++ x) :: rest.
Proof.
  revert cur; induction s as [|c s IH]; intros cur; cbn [split_on_from].
  - exists [], []. now rewrite app_nil_r.
  - destruct (c =? sep).
    + exists [], (split_on_from sep [] s). now rewrite app_nil_r.
    + destruct (IH (cur ++ [c])) as (x & rest & ->).
      exists (c :: x), rest. now rewrite <- app_assoc.
Qed.

Lemma lstrip_keeps (c : char) (l : str) :
  In c l -> is_space c = false -> lstrip l <> [].
Proof.
  intros Hin Hc. induction l as [|x l IH]; [contradiction|].
  cbn [lstrip]. destruct (is_space x) eqn:Hx; [|discriminate].
  destruct Hin as [->|Hin]; [congruence | now apply IH].
Qed.

Lemma strip_keeps (c : char) (s : str) :
  is_space c = false -> str_truthy (strip (c :: s)) = true.
Proof.
  intros Hc. unfold strip. cbn [lstrip]. rewrite Hc.
  assert (Hne : lstrip (rev (c :: s)) <> []).
  { apply (lstrip_keeps c); [|assumption].
    apply in_rev. rewrite rev_involutive. now left. }
  destruct (lstrip (rev (c :: s))) as [|y l]; [contradiction|].
  cbn [rev]. destruct (rev l); reflexivity.
Qed.

(** The reply of a chat handler starts with a sentence that is not blank,
    whatever is put into the template. *)
Lemma first_sentence_spoken (body : str) :
  exists first rest,
    split_on full_stop (lit "这是对你消息的回复：'" ++ body) = first :: rest
    /\ str_truthy (strip first) = true.
Proof.
  replace (lit "这是对你消息的回复：'")
    with (0x8FD9 :: skipn 1 (lit "这是对你消息的回复：'"))
    by (vm_compute; reflexivity).
  unfold split_on. cbn [app split_on_from].
  destruct (0x8FD9 =? full_stop) eqn:Hsep; [vm_compute in Hsep; discriminate|].
  destruct (split_on_from_head full_stop [0x8FD9]
              (skipn 1 (lit "这是对你消息的回复：'") ++ body))
    as (x & rest & Hsplit).
  exists ([0x8FD9] ++ x), rest. split; [exact Hsplit|].
  cbn [app]. now apply strip_keeps.
Qed.

(** X14: when the content of the last user message is a list and the request
    asks for a stream, /api/chat prepares the stream, writes at least one
    line (the list is sliced and printed into the reply), and then fails at
    [last_message.split()]: it returns the 500 error response with the
    stream left open after the lines.  /v1/chat/completions, which does not
    split the message on this path, completes its stream on the same
    request. *)
Theorem list_content_is_written_then_fails (E : env) (d : dict) (l : list json)
    (Hstream : truthy (dict_get d (lit "stream") (JBool false)) = true)
    (Hsource : last_message_of (dict_get d (lit "messages") (JArr []))
               = inr (JArr l)) :
  let model := dict_get d (lit "model") (JStr (lit "llama2:latest")) in
  let sentences :=
    split_on full_stop (Ollama.chat_text E (JArr (firstn 50 l))) in
  run (Ollama.handle_chat E (BodyJson (JObj d)))
  = Outcome
      (Prepared 200 (lit "OK") stream_headers :: chat_events E model sentences 0)
      (inr (JsonResponse 500
              (JObj [(lit "error",
                       JStr (exn_str (no_attribute (JArr l) (lit "split"))))])))
  /\ (exists first later,
        chat_events E model sentences 0
        = Written (JsonLine first) :: Slept 150 :: later)
  /\ complete_stream (run (OpenAI.handle_chat_completions E (BodyJson (JObj d)))).
Proof.
  intros model sentences. split; [|split].
  - unfold run, Ollama.handle_chat, try_except; py_run.
    rewrite Hsource, Hstream; py_run.
    cbn [py_slice_50]; py_run.
    erewrite bind_done; [|apply for_each_chat]. py_run.
    reflexivity.
  - subst sentences. unfold Ollama.chat_text.
    destruct (first_sentence_spoken
                (format_value E (JArr (firstn 50 l))
                 ++ lit "...'。这是一个模拟的聊天响应。"))
      as (first & rest & -> & Hfirst).
    cbn [chat_events]. rewrite Hfirst. now eexists _, _.
  - unfold run, OpenAI.handle_chat_completions, try_except; py_run.
    rewrite Hsource, Hstream; py_run.
    cbn [py_slice_50]; py_run.
    erewrite bind_done; [|apply for_each_chat_completion]. py_run.
    completes (chat_completion_events E (lit "chatcmpl-" ++ uuid4_hex E)
               (dict_get d (lit "model") (JStr (lit "gpt-3.5-turbo")))
               (split_on full_stop (OpenAI.chat_text E (JArr (firstn 50 l))))
             ++ [Written (SseData
                   (OpenAI.chat_chunk E (lit "chatcmpl-" ++ uuid4_hex E)
                      (dict_get d (lit "model") (JStr (lit "gpt-3.5-turbo")))
                      (JObj []) (JStr (lit "stop"))));
                 Written SseDone]).
Qed.

Lemma list_content_is_written_then_fails_witness :
  out_result
    (run (Ollama.handle_chat sample_env
            (BodyJson (JObj [(lit "messages",
                               JArr [JObj [(lit "role", JStr (lit "user"));
                                           (lit "content",
                                             JArr [JStr (lit "hi")])]]);
                             (lit "stream", JBool true)]))))
  = inr (JsonResponse 500
           (JObj [(lit "error",
                    JStr (lit "'list' object has no attribute 'split'"))])).
Proof.
  rewrite (proj1 (@list_content_is_written_then_fails sample_env
                    [(lit "messages",
                       JArr [JObj [(lit "role", JStr (lit "user"));
                                   (lit "content", JArr [JStr (lit "hi")])]]);
                     (lit "stream", JBool true)]
                    [JStr (lit "hi")] eq_refl eq_refl)).
  vm_compute; reflexivity.
Defined.

(** ** Pacing, clock readings and chunk headers of a stream *)

Lemma generate_events_sleeps (E : env) (model : json) (words : list str) (c : nat) :
  filter_map pause_of (generate_events E model words c)
  = repeat 100 (List.length words).
Proof.
  revert c; induction words as [|w words IH]; intros c; cbn; [reflexivity|].
  now rewrite IH.
Qed.

Lemma completion_events_sleeps (E : env) (id : str) (model : json)
    (words : list str) :
  filter_map pause_of (completion_events E id model words)
  = repeat 100 (List.length words).
Proof.
  induction words as [|w words IH]; cbn; [reflexivity|]. now rewrite IH.
Qed.

Lemma chat_events_sleeps (E : env) (model : json) (sentences : list str) (c : nat) :
  filter_map pause_of (chat_events E model sentences c)
  = repeat 150 (List.length (spoken sentences)).
Proof.
  unfold spoken.
  revert c; induction sentences as [|x sentences IH]; intros c; cbn;
    [reflexivity|].
  destruct (str_truthy (strip x)); cbn; now rewrite IH.
Qed.

Lemma chat_completion_events_sleeps (E : env) (id : str) (model : json)
    (sentences : list str) :
  filter_map pause_of (chat_completion_events E id model sentences)
  = repeat 150 (List.length (spoken sentences)).
Proof.
  unfold spoken.
  induction sentences as [|x sentences IH]; cbn; [reflexivity|].
  destruct (str_truthy (strip x)); cbn; now rewrite IH.
Qed.

Lemma sleeps_stream (status : Z) (reason : str) (headers : list (str * str))
    (loop closing : list event) (r : result response) :
  sleeps (Outcome (Prepared status reason headers :: loop ++ closing) r)
  = filter_map pause_of loop ++ filter_map pause_of closing.
Proof. unfold sleeps. cbn [out_trace filter_map pause_of]. apply filter_map_app. Qed.

Lemma generate_lines_length (E : env) (model : json) (words : list str) (c : nat) :
  List.length (generate_lines E model words c) = List.length words.
Proof.
  revert c; induction words as [|w words IH]; intros c; cbn; [reflexivity|].
  now rewrite IH.
Qed.

Lemma chat_lines_length (E : env) (model : json) (sentences : list str) (c : nat) :
  List.length (chat_lines E model sentences c) = List.length (spoken sentences).
Proof.
  unfold spoken.
  revert c; induction sentences as [|x sentences IH]; intros c; cbn;
    [reflexivity|].
  destruct (str_truthy (strip x)); cbn; now rewrite IH.
Qed.

Lemma generate_lines_stamps (E : env) (model : json) (words : list str) (c : nat) :
  map (field "created_at") (generate_lines E model words c)
  = map (stamp E) (seq c (List.length words)).
Proof.
  revert c; induction words as [|w words IH]; intros c; [reflexivity|].
  cbn [generate_lines List.length seq map]. now rewrite IH.
Qed.

Lemma chat_lines_stamps (E : env) (model : json) (sentences : list str) (c : nat) :
  map (field "created_at") (chat_lines E model sentences c)
  = map (stamp E) (seq c (List.length (spoken sentences))).
Proof.
  unfold spoken.
  revert c; induction sentences as [|x sentences IH]; intros c; [reflexivity|].
  cbn [chat_lines filter]. destruct (str_truthy (strip x)).
  - cbn [List.length seq map]. now rewrite IH.
  - apply IH.
Qed.

(** X15: in a stream every pause follows a delta and all pauses of a session
    are equal: the two prompt handlers pause 100 ms once per word of the
    prompt, the two chat handlers 150 ms once per sentence of the reply that
    is not blank.  The line-delimited streams write one line more than they
    pause (the line that is done), the event streams two chunks more (the
    final chunk and the sentinel). *)
Theorem stream_pacing (E : env) (d : dict) (p s : str)
    (Hstream : truthy (dict_get d (lit "stream") (JBool false)) = true)
    (Hprompt : dict_get d (lit "prompt") (JStr []) = JStr p)
    (Hsource : last_message_of (dict_get d (lit "messages") (JArr []))
               = inr (JStr s)) :
  let words := List.length (split_ws p) in
  let legacy :=
    List.length (spoken (split_on full_stop
                           (Ollama.chat_text E (JStr (slice_to 50 s))))) in
  let openai :=
    List.length (spoken (split_on full_stop
                           (OpenAI.chat_text E (JStr (slice_to 50 s))))) in
  let generated := run (Ollama.handle_generate E (BodyJson (JObj d))) in
  let chatted := run (Ollama.handle_chat E (BodyJson (JObj d))) in
  let completed := run (OpenAI.handle_completions E (BodyJson (JObj d))) in
  let chat_completed :=
    run (OpenAI.handle_chat_completions E (BodyJson (JObj d))) in
  (sleeps generated = repeat 100 words
   /\ List.length (written generated) = (words + 1)%nat)
  /\ (sleeps chatted = repeat 150 legacy
      /\ List.length (written chatted) = (legacy + 1)%nat)
  /\ (sleeps completed = repeat 100 words
      /\ List.length (written completed) = (words + 2)%nat)
  /\ (sleeps chat_completed = repeat 150 openai
      /\ List.length (written chat_completed) = (openai + 2)%nat).
Proof.
  intros words legacy openai generated chatted completed chat_completed.
  split; [|split; [|split]]; split.
  - subst generated. rewrite (generate_stream_run E d Hstream Hprompt).
    rewrite sleeps_stream, generate_events_sleeps. cbn [filter_map pause_of].
    apply app_nil_r.
  - subst generated. rewrite (generate_stream_written E d Hstream Hprompt).
    rewrite length_map, length_app, generate_lines_length. reflexivity.
  - subst chatted. rewrite (chat_stream_run E d Hstream Hsource).
    rewrite sleeps_stream, chat_events_sleeps. cbn [filter_map pause_of].
    apply app_nil_r.
  - subst chatted. rewrite (chat_stream_written E d Hstream Hsource).
    rewrite length_map, length_app, chat_lines_length. reflexivity.
  - subst completed. rewrite (completions_stream_run E d Hstream Hprompt).
    rewrite sleeps_stream, completion_events_sleeps. cbn [filter_map pause_of].
    apply app_nil_r.
  - subst completed. rewrite (completions_stream_written E d Hstream Hprompt).
    rewrite length_app, length_map, length_app.
    unfold completion_chunks. rewrite length_map. cbn [List.length].
    unfold words. now rewrite <- Nat.add_assoc.
  - subst chat_completed.
    rewrite (chat_completions_stream_run E d Hstream Hsource).
    rewrite sleeps_stream, chat_completion_events_sleeps.
    cbn [filter_map pause_of]. apply app_nil_r.
  - subst chat_completed.
    rewrite (chat_completions_stream_written E d Hstream Hsource).
    rewrite length_app, length_map, length_app.
    unfold chat_completion_chunks. rewrite length_map. cbn [List.length].
    unfold openai. now rewrite <- Nat.add_assoc.
Qed.

Lemma stream_pacing_witness :
  sleeps (run (Ollama.handle_generate sample_env
                 (BodyJson (JObj [(lit "prompt", JStr (lit "a b c"));
                                  (lit "stream", JBool true)]))))
  = [100; 100; 100].
Proof.
  exact (proj1 (proj1 (@stream_pacing sample_env
                         [(lit "prompt", JStr (lit "a b c"));
                          (lit "stream", JBool true)]
                         (lit "a b c") [] eq_refl eq_refl eq_refl))).
Defined.

(** X16: the lines of a line-delimited stream carry successive readings of
    the clock: the k-th line written has the k-th reading as [created_at],
    the line that is done the last one; no reading is used twice and none is
    skipped. *)
Theorem lines_carry_successive_readings (E : env) (d : dict) (p s : str)
    (Hstream : truthy (dict_get d (lit "stream") (JBool false)) = true)
    (Hprompt : dict_get d (lit "prompt") (JStr []) = JStr p)
    (Hsource : last_message_of (dict_get d (lit "messages") (JArr []))
               = inr (JStr s)) :
  let words := List.length (split_ws p) in
  let sentences :=
    List.length (spoken (split_on full_stop
                           (Ollama.chat_text E (JStr (slice_to 50 s))))) in
  map (field "created_at")
    (payloads (run (Ollama.handle_generate E (BodyJson (JObj d)))))
  = map (stamp E) (seq 0 (words + 1))
  /\ map (field "created_at")
       (payloads (run (Ollama.handle_chat E (BodyJson (JObj d)))))
     = map (stamp E) (seq 0 (sentences + 1)).
Proof.
  intros words sentences. split.
  - pose proof (generate_stream_written E d Hstream Hprompt) as Hw.
    cbv zeta in Hw. rewrite <- (app_nil_r (map JsonLine _)) in Hw.
    apply payloads_written in Hw. cbn [filter_map] in Hw.
    rewrite app_nil_r in Hw. rewrite Hw.
    rewrite map_app, generate_lines_stamps, seq_app, map_app. reflexivity.
  - pose proof (chat_stream_written E d Hstream Hsource) as Hw.
    cbv zeta in Hw. rewrite <- (app_nil_r (map JsonLine _)) in Hw.
    apply payloads_written in Hw. cbn [filter_map] in Hw.
    rewrite app_nil_r in Hw. rewrite Hw.
    rewrite map_app, chat_lines_stamps, seq_app, map_app. reflexivity.
Qed.

Lemma lines_carry_successive_readings_witness :
  map (field "created_at")
    (payloads (run (Ollama.handle_generate sample_env
                      (BodyJson (JObj [(lit "prompt", JStr (lit "a b"));
                                       (lit "stream", JBool true)])))))
  = map (stamp sample_env) [0; 1; 2]%nat.
Proof.
  exact (proj1 (@lines_carry_successive_readings sample_env
                  [(lit "prompt", JStr (lit "a b"));
                   (lit "stream", JBool true)]
                  (lit "a b") [] eq_refl eq_refl eq_refl)).
Defined.

(** X17: all chunks of one event stream, the final one included, carry the
    same [id] (the prefix of the surface and the one UUID drawn for the
    request), the same [object], the same [created] (the clock is read once
    per request) and the model of the request. *)
Theorem chunks_share_header (E : env) (d : dict) (p s : str)
    (Hstream : truthy (dict_get d (lit "stream") (JBool false)) = true)
    (Hprompt : dict_get d (lit "prompt") (JStr []) = JStr p)
    (Hsource : last_message_of (dict_get d (lit "messages") (JArr []))
               = inr (JStr s)) :
  Forall (chunk_header E (lit "chatcmpl-" ++ uuid4_hex E) "chat.completion.chunk"
            (dict_get d (lit "model") (JStr (lit "gpt-3.5-turbo"))))
    (payloads (run (OpenAI.handle_chat_completions E (BodyJson (JObj d)))))
  /\ Forall (chunk_header E (lit "cmpl-" ++ uuid4_hex E) "text_completion"
               (dict_get d (lit "model") (JStr (lit "text-davinci-003"))))
       (payloads (run (OpenAI.handle_completions E (BodyJson (JObj d))))).
Proof.
  split.
  - pose proof (chat_completions_stream_written E d Hstream Hsource) as Hw.
    cbv zeta in Hw. apply payloads_written_sse in Hw.
    cbn [filter_map payload] in Hw. rewrite app_nil_r in Hw. rewrite Hw.
    apply Forall_app; split.
    + unfold chat_completion_chunks. apply Forall_map, Forall_forall.
      intros x _. repeat split.
    + constructor; [repeat split | constructor].
  - pose proof (completions_stream_written E d Hstream Hprompt) as Hw.
    cbv zeta in Hw. apply payloads_written_sse in Hw.
    cbn [filter_map payload] in Hw. rewrite app_nil_r in Hw. rewrite Hw.
    apply Forall_app; split.
    + unfold completion_chunks. apply Forall_map, Forall_forall.
      intros x _. repeat split.
    + constructor; [repeat split | constructor].
Qed.

Lemma chunks_share_header_witness :
  Forall (chunk_header sample_env (lit "cmpl-" ++ uuid4_hex sample_env)
            "text_completion"
            (dict_get [(lit "prompt", JStr (lit "a b"));
                       (lit "stream", JBool true)]
               (lit "model") (JStr (lit "text-davinci-003"))))
    (payloads (run (OpenAI.handle_completions sample_env
                      (BodyJson (JObj [(lit "prompt", JStr (lit "a b"));
                                       (lit "stream", JBool true)]))))).
Proof.
  exact (proj2 (@chunks_share_header sample_env
                  [(lit "prompt", JStr (lit "a b"));
                   (lit "stream", JBool true)]
                  (lit "a b") [] eq_refl eq_refl eq_refl)).
Defined.

(** X18: GET /v1/models lists exactly the entries that GET
    /v1/models/{model_id} answers with status 200: an entry is listed if and
    only if it is the answer to a request for its own [id]. *)
Theorem listed_models_are_retrievable :
  exists data,
    run OpenAI.handle_list_models
    = Outcome []
        (inr (JsonResponse 200
                (JObj [(lit "object", JStr (lit "list"));
                       (lit "data", JArr data)])))
    /\ forall entry,
         In entry data
         <-> exists model_id,
               field "id" entry = Some (JStr model_id)
               /\ run (OpenAI.handle_retrieve_model model_id)
                  = Outcome [] (inr (JsonResponse 200 entry)).
Proof.
  exists (dict_values OpenAI.models). split; [reflexivity|].
  intros entry. split.
  - intros [<-|[<-|[<-|[]]]]; eexists; split; reflexivity.
  - intros (model_id & _ & Hrun). unfold OpenAI.handle_retrieve_model in Hrun.
    destruct (dict_lookup OpenAI.models model_id) as [e|] eqn:Hl.
    + apply dict_lookup_in in Hl.
      assert (e = entry) as -> by (cbv [run ret] in Hrun; congruence).
      unfold dict_values. apply in_map_iff. now exists (model_id, entry).
    + cbv [run ret] in Hrun. discriminate.
Qed.
